(** * Cardio-Tool: the Gradio entry points and the PDF report

    A shallow embedding of [cardio_app.py] (the four [run_*] entry points and
    [log_usage]) and of [reports/pdf.py] ([create_pdf_report]), with the
    properties the specification states about them.

    Python values are an inductive type, dicts are association lists in
    insertion order, [str] is a byte string holding the UTF-8 text.  The
    usage log, the source of UUIDs and the record of calls made to the
    imported validators and calculators are threaded through a small
    state-and-exception monad. *)

From Stdlib Require Import String Ascii List ZArith Bool Lia Floats.
From Stdlib Require Import Strings.Byte DecimalString.
Import ListNotations.

Set Warnings "-inexact-float,-register-all".
Open Scope string_scope.

(** ** Python values and builtins *)

Module Py.

(** The values the entry points receive from the widgets and hand on. *)
Inductive value : Type :=
| VNone
| VBool (b : bool)
| VInt (z : Z)
| VFloat (f : float)
| VStr (s : string)
| VList (l : list value)
| VDict (d : list (string * value)).

(** A dict with [str] keys, in insertion order. *)
Definition dict : Type := list (string * value).

(** Exceptions.  [ValueError] stands for any instance of the class or of a
    subclass, carrying [str(e)]; the other constructors are the exceptions an
    [except ValueError] clause does not catch. *)
Inductive exn : Type :=
| ValueError (msg : string)
| TypeError (msg : string)
| KeyError (key : string)
| OverflowError (msg : string)
| OtherException (cls msg : string).

Definition is_ValueError (e : exn) : bool :=
  match e with ValueError _ => true | _ => false end.

(** What evaluating a call gives: a value, or a raised exception. *)
Inductive outcome (A : Type) : Type :=
| Ret (a : A)
| Raise (e : exn).
Arguments Ret {A} a.
Arguments Raise {A} e.

(** The outcome with its value forgotten. *)
Definition void {A} (o : outcome A) : outcome unit :=
  match o with Ret _ => Ret tt | Raise e => Raise e end.

(** The first exception in a sequence of outcomes, in call order. *)
Fixpoint first_raise (outs : list (outcome unit)) : option exn :=
  match outs with
  | [] => None
  | Ret _ :: rest => first_raise rest
  | Raise e :: _ => Some e
  end.

(** [bool(v)]: the truth value of an object. *)
Definition truthy (v : value) : bool :=
  match v with
  | VNone => false
  | VBool b => b
  | VInt z => negb (z =? 0)%Z
  | VFloat f => negb (f =? 0)%float
  | VStr s => negb (s =? "")
  | VList l => match l with [] => false | _ :: _ => true end
  | VDict d => match d with [] => false | _ :: _ => true end
  end.

(** [a and b]: [a] when [a] is falsy, [b] otherwise. *)
Definition and_ (a b : value) : value := if truthy a then b else a.

(** *** dicts *)

Fixpoint dict_get (k : string) (d : dict) : option value :=
  match d with
  | [] => None
  | (k', v) :: rest => if k =? k' then Some v else dict_get k rest
  end.

(** [d[k] = v]: an existing key keeps its position, a new key goes last. *)
Fixpoint dict_set (k : string) (v : value) (d : dict) : dict :=
  match d with
  | [] => [(k, v)]
  | (k', v') :: rest =>
      if k =? k' then (k', v) :: rest else (k', v') :: dict_set k v rest
  end.

(** A dict display [{k1: v1, **m, k2: v2, ...}], its items already laid out
    left to right: every item is stored in turn into an empty dict. *)
Definition dict_display (items : list (string * value)) : dict :=
  fold_left (fun d kv => dict_set (fst kv) (snd kv) d) items [].

Definition dict_keys (d : dict) : list string := map fst d.

(** *** the interpreter's builtins that are not spelled out here *)

Class Runtime : Type := {
  (** [repr] of a float (shortest digits that round-trip) *)
  float_repr : float -> string;
  (** [repr] of a str (quoting and escapes) *)
  str_repr : string -> string;
  (** [int(s)] for a str: the integer, or [None] for an invalid literal *)
  int_of_str : string -> option Z;
  (** [format(x, ".1%")] for a float *)
  format_pct1 : float -> string;
  (** the text of the n-th UUID that [uuid.uuid4()] draws *)
  uuid4_str : nat -> string
}.

Definition str_of_Z (z : Z) : string := NilZero.string_of_int (Z.to_int z).

Fixpoint join (sep : string) (l : list string) : string :=
  match l with
  | [] => ""
  | [x] => x
  | x :: rest => x ++ sep ++ join sep rest
  end.

Section Builtins.
Context {RT : Runtime}.

(** [repr(v)] *)
Fixpoint repr (v : value) : string :=
  match v with
  | VNone => "None"
  | VBool true => "True"
  | VBool false => "False"
  | VInt z => str_of_Z z
  | VFloat f => float_repr f
  | VStr s => str_repr s
  | VList l => "[" ++ join ", " (map repr l) ++ "]"
  | VDict d =>
      "{" ++ join ", " (map (fun kv => match kv with
                                      | (k, x) => str_repr k ++ ": " ++ repr x
                                      end) d) ++ "}"
  end.

(** [str(v)], which is also what an f-string field [{v}] gives. *)
Definition str (v : value) : string :=
  match v with
  | VStr s => s
  | _ => repr v
  end.

(** Truncation of a float toward zero, for finite floats. *)
Definition trunc (f : float) : option Z :=
  match Prim2SF f with
  | S754_zero _ => Some 0%Z
  | S754_finite s m e =>
      let mag := Z.shiftl (Zpos m) e in
      Some (if s then (- mag)%Z else mag)
  | S754_infinity _ | S754_nan => None
  end.

(** [type(v).__name__] *)
Definition type_name (v : value) : string :=
  match v with
  | VNone => "NoneType"
  | VBool _ => "bool"
  | VInt _ => "int"
  | VFloat _ => "float"
  | VStr _ => "str"
  | VList _ => "list"
  | VDict _ => "dict"
  end.

(** [int(v)] *)
Definition int (v : value) : outcome Z :=
  match v with
  | VBool b => Ret (if b then 1 else 0)%Z
  | VInt z => Ret z
  | VFloat f =>
      match trunc f with
      | Some z => Ret z
      | None =>
          if is_nan f
          then Raise (ValueError "cannot convert float NaN to integer")
          else Raise (OverflowError "cannot convert float infinity to integer")
      end
  | VStr s =>
      match int_of_str s with
      | Some z => Ret z
      | None =>
          Raise (ValueError ("invalid literal for int() with base 10: " ++ str_repr s))
      end
  | VNone | VList _ | VDict _ =>
      Raise (TypeError ("int() argument must be a string, a bytes-like object or a real number, not '"
                        ++ type_name v ++ "'"))
  end.

(** [v[k]] for a str key. *)
Definition getitem (v : value) (k : string) : outcome value :=
  match v with
  | VDict d =>
      match dict_get k d with
      | Some x => Ret x
      | None => Raise (KeyError k)
      end
  | VStr _ => Raise (TypeError "string indices must be integers, not 'str'")
  | VList _ => Raise (TypeError "list indices must be integers or slices, not str")
  | VNone | VBool _ | VInt _ | VFloat _ =>
      Raise (TypeError ("'" ++ type_name v ++ "' object is not subscriptable"))
  end.

End Builtins.

End Py.
Import Py.

(** ** cardio_app.py *)

Module CardioApp.

(** A call made to one of the imported validators or calculators: the name of
    the function and its positional arguments. *)
Inductive call : Type :=
| Call (fn : string) (args : list value).

(** What an entry point can observe and change outside itself. *)
Record world : Type := mkWorld {
  calls : list call;   (** calls made to the imported functions, oldest first *)
  log : list string;   (** messages handed to [logging.info], oldest first *)
  draws : nat          (** how many UUIDs have been drawn so far *)
}.

(** State and exceptions. *)
Definition M (A : Type) : Type := world -> outcome A * world.

Definition ret {A} (a : A) : M A := fun w => (Ret a, w).

Definition bind {A B} (m : M A) (k : A -> M B) : M B :=
  fun w =>
    match m w with
    | (Ret a, w') => k a w'
    | (Raise e, w') => (Raise e, w')
    end.

(** An outcome computed without touching the world. *)
Definition lift {A} (o : outcome A) : M A := fun w => (o, w).

(** [try: body / except ValueError as e: handler(str(e))] *)
Definition try_except_ValueError {A} (body : M A) (handler : string -> M A) : M A :=
  fun w =>
    match body w with
    | (Raise (ValueError msg), w') => handler msg w'
    | r => r
    end.

Declare Scope py_scope.
Delimit Scope py_scope with py.
Notation "x <- m ;; k" := (bind m (fun x => k))
  (at level 61, m at next level, right associativity) : py_scope.
Notation "m ;;; k" := (bind m (fun _ => k))
  (at level 61, right associativity) : py_scope.
Open Scope py_scope.

Definition record_call (c : call) (w : world) : world :=
  mkWorld (calls w ++ [c]) (log w) (draws w).

(** Calling an imported function: the call is recorded, then its outcome is
    the outcome of the application. *)
Definition call1 {A} (fn : string) (f : dict -> outcome A) (d : dict) : M A :=
  fun w => (f d, record_call (Call fn [VDict d]) w).

Definition call2 {A} (fn : string) (f : value -> value -> outcome A)
    (a b : value) : M A :=
  fun w => (f a b, record_call (Call fn [a; b]) w).

Definition call3 {A} (fn : string) (f : value -> value -> value -> outcome A)
    (a b c : value) : M A :=
  fun w => (f a b c, record_call (Call fn [a; b; c]) w).

(** The functions imported from [calculators] and [validators.patient_input]:
    each maps its arguments to a result or to a raised exception.  The
    specification describes them as pure, so the outcome is a function of the
    arguments alone. *)
Class Engine : Type := {
  validate_ascvd_input : dict -> outcome unit;
  ascvd : dict -> outcome float;
  validate_bp_input : value -> value -> outcome unit;
  bp_category : value -> value -> outcome value;
  validate_cha2ds2vasc_input : dict -> outcome unit;
  cha2ds2vasc : dict -> outcome value;
  validate_ecg_rhythm_input : dict -> outcome unit;
  validate_ecg_12lead_input : dict -> outcome unit;
  interpret_rhythm : value -> value -> value -> outcome value;
  interpret_12lead_findings : dict -> outcome value;
  interpret_ecg_comprehensive : dict -> outcome value
}.

Section App.
Context {RT : Runtime} {E : Engine}.

(** [str(uuid.uuid4())[:8]] *)
Definition session_id (n : nat) : string := substring 0 8 (uuid4_str n).

(** The message [log_usage] formats; every call site passes [outputs]. *)
Definition usage_message (session tool_name : string) (inputs : value)
    (outputs : string) : string :=
  "session=" ++ session ++ " tool=" ++ tool_name
    ++ " inputs=" ++ str inputs ++ " outputs=" ++ outputs.

Definition log_usage (tool_name : string) (inputs : value) (outputs : string)
    : M unit :=
  fun w =>
    let session := session_id (draws w) in
    (Ret tt,
     mkWorld (calls w)
             (log w ++ [usage_message session tool_name inputs outputs])
             (S (draws w))).

(** The conditional expression that names the band of a risk. *)
Definition ascvd_category (risk : float) : string :=
  if (0.20 <=? risk)%float then "High"
  else if (0.075 <=? risk)%float then "Intermediate"
  else if (0.05 <=? risk)%float then "Borderline"
  else "Low".

Definition ascvd_data (age sex race total_chol hdl sbp on_htn_meds smoker
    diabetes : value) : dict :=
  dict_display
    [ ("age", age); ("sex", sex); ("race", race);
      ("total_cholesterol", total_chol); ("hdl", hdl); ("sbp", sbp);
      ("on_htn_meds", on_htn_meds); ("smoker", smoker);
      ("diabetes", diabetes) ].

Definition run_ascvd (age sex race total_chol hdl sbp on_htn_meds smoker
    diabetes : value) (patient_id : value) : M string :=
  let data :=
    ascvd_data age sex race total_chol hdl sbp on_htn_meds smoker diabetes in
  try_except_ValueError
    (call1 "validate_ascvd_input" validate_ascvd_input data ;;;
     risk <- call1 "ascvd" ascvd data ;;
     let category := ascvd_category risk in
     let result_text :=
       "10-Year ASCVD Risk: " ++ format_pct1 risk ++ " (" ++ category ++ ")" in
     log_usage "ascvd" (VDict data) result_text ;;;
     ret result_text)
    (fun e =>
       log_usage "ascvd" (VDict data) ("Error: " ++ e) ;;;
       ret ("❌ Input Error: " ++ e)).

Definition bp_data (sbp dbp : value) : dict :=
  dict_display [ ("sbp", sbp); ("dbp", dbp) ].

Definition run_bp (sbp dbp : value) (patient_id : value) : M string :=
  let data := bp_data sbp dbp in
  try_except_ValueError
    (call2 "validate_bp_input" validate_bp_input sbp dbp ;;;
     category <- call2 "bp_category" bp_category sbp dbp ;;
     let result_text := "Blood Pressure Category: " ++ str category in
     log_usage "bp_category" (VDict data) result_text ;;;
     ret result_text)
    (fun e =>
       log_usage "bp_category" (VDict data) ("Error: " ++ e) ;;;
       ret ("❌ Input Error: " ++ e)).

(** The dict display of [run_cha2ds2vasc]: the eight [int(...)] calls are
    evaluated left to right, before the [try] statement is entered. *)
Definition cha2ds2vasc_data (chf htn age75 diabetes stroke vascular age65_74
    female : value) : outcome dict :=
  match int chf with Raise e => Raise e | Ret i1 =>
  match int htn with Raise e => Raise e | Ret i2 =>
  match int age75 with Raise e => Raise e | Ret i3 =>
  match int diabetes with Raise e => Raise e | Ret i4 =>
  match int stroke with Raise e => Raise e | Ret i5 =>
  match int vascular with Raise e => Raise e | Ret i6 =>
  match int age65_74 with Raise e => Raise e | Ret i7 =>
  match int female with Raise e => Raise e | Ret i8 =>
    Ret (dict_display
           [ ("chf", VInt i1); ("hypertension", VInt i2);
             ("age_ge_75", VInt i3); ("diabetes", VInt i4);
             ("stroke", VInt i5); ("vascular", VInt i6);
             ("age_65_74", VInt i7); ("female", VInt i8) ])
  end end end end end end end end.

Definition run_cha2ds2vasc (chf htn age75 diabetes stroke vascular age65_74
    female : value) (patient_id : value) : M string :=
  data <- lift (cha2ds2vasc_data chf htn age75 diabetes stroke vascular
                  age65_74 female) ;;
  try_except_ValueError
    (call1 "validate_cha2ds2vasc_input" validate_cha2ds2vasc_input data ;;;
     score <- call1 "cha2ds2vasc" cha2ds2vasc data ;;
     let result_text := "CHA₂DS₂-VASc Score: " ++ str score in
     log_usage "cha2ds2vasc" (VDict data) result_text ;;;
     ret result_text)
    (fun e =>
       log_usage "cha2ds2vasc" (VDict data) ("Error: " ++ e) ;;;
       ret ("❌ Input Error: " ++ e)).

(** The line feed of the f-string escapes. *)
Definition nl : string := String "010"%char EmptyString.

Definition rhythm_data (rate regular p_waves_present : value) : dict :=
  dict_display
    [ ("rate", rate); ("regular", regular);
      ("p_waves_present", p_waves_present) ].

(** [**({key: leads} if flag and leads else {})] *)
Definition optional_leads (key : string) (flag leads : value)
    : list (string * value) :=
  if truthy (and_ flag leads) then dict_display [ (key, leads) ] else [].

Definition lead_data (st_elev st_elev_leads qt rr lvh q_waves q_leads
    t_inversion pr : value) : dict :=
  dict_display
    ([ ("st_elevation", st_elev) ]
     ++ optional_leads "st_elevation_leads" st_elev st_elev_leads
     ++ [ ("qt_interval_ms", qt); ("rr_interval_ms", rr);
          ("lvh_criteria_met", lvh); ("pathological_q_waves", q_waves) ]
     ++ optional_leads "q_wave_leads" q_waves q_leads
     ++ [ ("t_wave_inversion", t_inversion); ("pr_interval_ms", pr) ]).

(** [{**a, **b}] *)
Definition dict_union (a b : dict) : dict := dict_display (a ++ b).

Definition run_ecg (rate regular p_waves_present st_elev st_elev_leads qt rr
    lvh q_waves q_leads t_inversion pr : value) (patient_id : value)
    : M string :=
  let rhythm_data := rhythm_data rate regular p_waves_present in
  let lead_data :=
    lead_data st_elev st_elev_leads qt rr lvh q_waves q_leads t_inversion pr in
  try_except_ValueError
    (call1 "validate_ecg_rhythm_input" validate_ecg_rhythm_input rhythm_data ;;;
     call1 "validate_ecg_12lead_input" validate_ecg_12lead_input lead_data ;;;
     rhythm <- call3 "interpret_rhythm" interpret_rhythm
                 rate regular p_waves_present ;;
     findings <- call1 "interpret_12lead_findings" interpret_12lead_findings
                   lead_data ;;
     comprehensive <- call1 "interpret_ecg_comprehensive"
                        interpret_ecg_comprehensive
                        (dict_union rhythm_data lead_data) ;;
     findings_text <- lift (getitem findings "findings") ;;
     let findings_text :=
       if negb (truthy findings_text)
       then VStr "No 12-lead abnormalities detected"
       else findings_text in
     overall_risk <- lift (getitem comprehensive "overall_risk") ;;
     let summary :=
       "Rhythm: " ++ str rhythm ++ nl
         ++ "Findings: " ++ str findings_text ++ nl
         ++ "Overall Risk: " ++ str overall_risk in
     log_usage "ecg_interpret" (VDict (dict_union rhythm_data lead_data))
       summary ;;;
     ret summary)
    (fun e =>
       log_usage "ecg_interpret" (VDict (dict_union rhythm_data lead_data))
         ("Error: " ++ e) ;;;
       ret ("❌ Input Error: " ++ e)).

End App.

End CardioApp.
Import CardioApp.

(** ** reports/pdf.py *)

Module Reports.

(** The calls [create_pdf_report] makes on the [FPDF] object. *)
Inductive op : Type :=
| AddPage
| SetFont (family style : string) (size : Z)
| Cell (w h : Z) (txt : string) (ln : bool)
| Ln (h : Z).

(** An [FPDF] object: the reading of the clock the library takes for the
    document (it is written into the file as the creation date, and the
    identifier of the file is derived from it), and the calls made on the
    object, oldest first. *)
Record FPDF : Type := mkFPDF {
  created : Z;
  ops : list op
}.

(** [FPDF()], at the clock reading [now]. *)
Definition new (now : Z) : FPDF := mkFPDF now [].

Definition add_op (o : op) (pdf : FPDF) : FPDF :=
  mkFPDF (created pdf) (ops pdf ++ [o]).

Definition add_page (pdf : FPDF) : FPDF := add_op AddPage pdf.
Definition set_font (family style : string) (size : Z) (pdf : FPDF) : FPDF :=
  add_op (SetFont family style size) pdf.
Definition ln (h : Z) (pdf : FPDF) : FPDF := add_op (Ln h) pdf.

(** A text all of whose characters are in latin-1, read off its UTF-8
    bytes: a byte below 128 is one such character, the lead bytes 194 and
    195 with their continuation byte are the characters 128 to 255, and any
    other lead byte starts a character beyond. *)
Fixpoint latin1 (s : string) : bool :=
  match s with
  | EmptyString => true
  | String c rest =>
      let n := nat_of_ascii c in
      if Nat.ltb n 128 then latin1 rest
      else if Nat.eqb n 194 || Nat.eqb n 195 then
        match rest with
        | String _ rest' => latin1 rest'
        | EmptyString => false
        end
      else false
  end.

(** [pdf.cell(w, h, txt, ln=...)] with a core font, which is what the family
    "Arial" selects: the library encodes the text in latin-1 and raises its
    [FPDFUnicodeEncodingException] (not a [ValueError]) when a character does
    not fit.  The exception is given here with the text refused. *)
Definition cell (w h : Z) (txt : string) (ln : bool) (pdf : FPDF)
    : outcome FPDF :=
  if latin1 txt then Ret (add_op (Cell w h txt ln) pdf)
  else Raise (OtherException "FPDFUnicodeEncodingException" txt).

(** [pdf.output(buf)] followed by [buf.getvalue()]: the library's serializer.
    The bytes depend on the calls made and on the clock reading of the
    object. *)
Class Serializer : Type := {
  output : FPDF -> list byte
}.

(** The texts of the cells among the calls, in order. *)
Fixpoint cell_texts (pdf : list op) : list string :=
  match pdf with
  | [] => []
  | Cell _ _ txt _ :: rest => txt :: cell_texts rest
  | _ :: rest => cell_texts rest
  end.

(** *** base64 *)

Definition b64_alphabet : string :=
  "ABCDEFGHIJKLMNOPQRSTUVWXYZabcdefghijklmnopqrstuvwxyz0123456789+/".

Definition b64_pad : byte := byte_of_ascii "="%char.

(** The character of a 6-bit group. *)
Definition b64_char (n : N) : byte :=
  match String.get (N.to_nat (N.land n 63)) b64_alphabet with
  | Some c => byte_of_ascii c
  | None => b64_pad
  end.

(** [base64.b64encode]: three bytes give four characters, a shorter tail is
    padded with [=]. *)
Fixpoint b64encode (bs : list byte) : list byte :=
  match bs with
  | [] => []
  | [a] =>
      let n := N.shiftl (Byte.to_N a) 16 in
      [b64_char (N.shiftr n 18); b64_char (N.shiftr n 12); b64_pad; b64_pad]
  | [a; b] =>
      let n := N.lor (N.shiftl (Byte.to_N a) 16) (N.shiftl (Byte.to_N b) 8) in
      [b64_char (N.shiftr n 18); b64_char (N.shiftr n 12);
       b64_char (N.shiftr n 6); b64_pad]
  | a :: b :: c :: rest =>
      let n := N.lor (N.lor (N.shiftl (Byte.to_N a) 16)
                            (N.shiftl (Byte.to_N b) 8)) (Byte.to_N c) in
      b64_char (N.shiftr n 18) :: b64_char (N.shiftr n 12)
        :: b64_char (N.shiftr n 6) :: b64_char n :: b64encode rest
  end.

(** [bytes.decode()]: a [str] is kept as its UTF-8 bytes. *)
Definition decode (bs : list byte) : string := string_of_list_byte bs.

(** What [create_pdf_report] returns: [bytes], or [str] when
    [return_base64] is set. *)
Inductive report : Type :=
| Bytes (bs : list byte)
| Text (s : string).

Section Pdf.
Context {RT : Runtime} {SZ : Serializer}.

(** The body of the [for key, value in data.items()] loop. *)
Definition add_item (pdf : FPDF) (kv : value * value) : outcome FPDF :=
  let '(key, value) := kv in
  let pdf := ln 8 pdf in
  cell 0 10 (str key ++ ": " ++ str value) true pdf.

(** The loop [for key, value in data.items()]: it ends at the first entry
    whose cell raises. *)
Fixpoint add_items (data : list (value * value)) (pdf : FPDF) : outcome FPDF :=
  match data with
  | [] => Ret pdf
  | kv :: rest =>
      match add_item pdf kv with
      | Ret pdf' => add_items rest pdf'
      | Raise e => Raise e
      end
  end.

(** The text of the cell of one entry. *)
Definition item_text (kv : value * value) : string :=
  str (fst kv) ++ ": " ++ str (snd kv).

(** The first of the texts that is not latin-1, if there is one. *)
Definition first_refused (texts : list string) : option string :=
  find (fun t => negb (latin1 t)) texts.

(** The calls that write one entry, as a list: a line break, then the cell. *)
Definition item_ops (kv : value * value) : list op :=
  [Ln 8; Cell 0 10 (str (fst kv) ++ ": " ++ str (snd kv)) true].

(** [data] is given by its items, in iteration order; [now] is what the
    clock shows when the call is made. *)
Definition create_pdf_report (data : list (value * value)) (title : string)
    (return_base64 : bool) (now : Z) : outcome report :=
  let pdf := new now in
  let pdf := add_page pdf in
  let pdf := set_font "Arial" "B" 16 pdf in
  match cell 0 10 title true pdf with
  | Raise e => Raise e
  | Ret pdf =>
      let pdf := set_font "Arial" "" 12 pdf in
      match add_items data pdf with
      | Raise e => Raise e
      | Ret pdf =>
          if return_base64 then Ret (Text (decode (b64encode (output pdf))))
          else Ret (Bytes (output pdf))
      end
  end.

End Pdf.

End Reports.
Import Reports.

(** ** The four entry points as one family *)

(** A click on one of the four buttons: the entry point and its arguments. *)
Inductive invocation : Type :=
| Ascvd (age sex race total_chol hdl sbp on_htn_meds smoker diabetes
         patient_id : value)
| Bp (sbp dbp patient_id : value)
| Cha2ds2vasc (chf htn age75 diabetes stroke vascular age65_74 female
               patient_id : value)
| Ecg (rate regular p_waves_present st_elev st_elev_leads qt rr lvh q_waves
       q_leads t_inversion pr patient_id : value).

(** The name each entry point passes to [log_usage]. *)
Definition tool_name (i : invocation) : string :=
  match i with
  | Ascvd _ _ _ _ _ _ _ _ _ _ => "ascvd"
  | Bp _ _ _ => "bp_category"
  | Cha2ds2vasc _ _ _ _ _ _ _ _ _ => "cha2ds2vasc"
  | Ecg _ _ _ _ _ _ _ _ _ _ _ _ _ => "ecg_interpret"
  end.

(** The imported validators and calculators each entry point names. *)
Definition validators_of (i : invocation) : list string :=
  match i with
  | Ascvd _ _ _ _ _ _ _ _ _ _ => ["validate_ascvd_input"]
  | Bp _ _ _ => ["validate_bp_input"]
  | Cha2ds2vasc _ _ _ _ _ _ _ _ _ => ["validate_cha2ds2vasc_input"]
  | Ecg _ _ _ _ _ _ _ _ _ _ _ _ _ =>
      ["validate_ecg_rhythm_input"; "validate_ecg_12lead_input"]
  end.

Definition calculators_of (i : invocation) : list string :=
  match i with
  | Ascvd _ _ _ _ _ _ _ _ _ _ => ["ascvd"]
  | Bp _ _ _ => ["bp_category"]
  | Cha2ds2vasc _ _ _ _ _ _ _ _ _ => ["cha2ds2vasc"]
  | Ecg _ _ _ _ _ _ _ _ _ _ _ _ _ =>
      ["interpret_rhythm"; "interpret_12lead_findings";
       "interpret_ecg_comprehensive"]
  end.

Definition mem (s : string) (l : list string) : bool := existsb (String.eqb s) l.

(** In a sequence of calls, every call to a calculator comes after a call to
    each of the validators; [seen] are the functions called before. *)
Fixpoint validated_first (validators calculators seen : list string)
    (tr : list call) : bool :=
  match tr with
  | [] => true
  | Call fn _ :: rest =>
      (if mem fn calculators
       then forallb (fun v => mem v seen) validators
       else true)
      && validated_first validators calculators (fn :: seen) rest
  end.

(** No call in the sequence is to a calculator. *)
Definition no_call_to (calculators : list string) (tr : list call) : bool :=
  forallb (fun c => match c with Call fn _ => negb (mem fn calculators) end) tr.

(** The calls an invocation added, from the worlds before and after it. *)
Definition new_calls (w w' : world) : list call :=
  skipn (length (calls w)) (calls w').

(** The line feeds in a text; a message written to the log file is followed
    by one terminator, so it takes one more line than it has line feeds. *)
Fixpoint count_nl (s : string) : nat :=
  match s with
  | EmptyString => 0
  | String c rest => (if Ascii.eqb c "010" then 1 else 0) + count_nl rest
  end.

Definition lines_in_file (message : string) : nat := S (count_nl message).

(** The calls [run_ecg] can make, with the records it passes. *)
Definition ecg_calls (rate regular p st_elev st_leads qt rr lvh q_waves
    q_leads t_inv pr : value) : list call :=
  let rd := rhythm_data rate regular p in
  let ld := lead_data st_elev st_leads qt rr lvh q_waves q_leads t_inv pr in
  [ Call "validate_ecg_rhythm_input" [VDict rd];
    Call "validate_ecg_12lead_input" [VDict ld];
    Call "interpret_rhythm" [rate; regular; p];
    Call "interpret_12lead_findings" [VDict ld];
    Call "interpret_ecg_comprehensive" [VDict (dict_union rd ld)] ].

(** A value that is an [int], and not a [bool] or anything else. *)
Definition is_int (v : value) : bool :=
  match v with VInt _ => true | _ => false end.

Section Family.
Context {RT : Runtime} {E : Engine}.

Definition run (i : invocation) : M string :=
  match i with
  | Ascvd age sex race total_chol hdl sbp on_htn_meds smoker diabetes pid =>
      run_ascvd age sex race total_chol hdl sbp on_htn_meds smoker diabetes pid
  | Bp sbp dbp pid => run_bp sbp dbp pid
  | Cha2ds2vasc chf htn age75 diabetes stroke vascular age65_74 female pid =>
      run_cha2ds2vasc chf htn age75 diabetes stroke vascular age65_74 female pid
  | Ecg rate regular p st_elev st_leads qt rr lvh q_waves q_leads t_inv pr pid =>
      run_ecg rate regular p st_elev st_leads qt rr lvh q_waves q_leads t_inv
        pr pid
  end.

(** The input record each entry point builds and logs. *)
Definition inputs (i : invocation) : outcome dict :=
  match i with
  | Ascvd age sex race total_chol hdl sbp on_htn_meds smoker diabetes _ =>
      Ret (ascvd_data age sex race total_chol hdl sbp on_htn_meds smoker
             diabetes)
  | Bp sbp dbp _ => Ret (bp_data sbp dbp)
  | Cha2ds2vasc chf htn age75 diabetes stroke vascular age65_74 female _ =>
      cha2ds2vasc_data chf htn age75 diabetes stroke vascular age65_74 female
  | Ecg rate regular p st_elev st_leads qt rr lvh q_waves q_leads t_inv pr _ =>
      Ret (dict_union (rhythm_data rate regular p)
             (lead_data st_elev st_leads qt rr lvh q_waves q_leads t_inv pr))
  end.

(** Validation of the invocation raises a [ValueError] with text [msg]. *)
Definition validation_raises (i : invocation) (msg : string) : Prop :=
  match i with
  | Ascvd age sex race total_chol hdl sbp on_htn_meds smoker diabetes _ =>
      validate_ascvd_input
        (ascvd_data age sex race total_chol hdl sbp on_htn_meds smoker diabetes)
      = Raise (ValueError msg)
  | Bp sbp dbp _ => validate_bp_input sbp dbp = Raise (ValueError msg)
  | Cha2ds2vasc chf htn age75 diabetes stroke vascular age65_74 female _ =>
      exists data,
        cha2ds2vasc_data chf htn age75 diabetes stroke vascular age65_74 female
        = Ret data
        /\ validate_cha2ds2vasc_input data = Raise (ValueError msg)
  | Ecg rate regular p st_elev st_leads qt rr lvh q_waves q_leads t_inv pr _ =>
      let rd := rhythm_data rate regular p in
      let ld := lead_data st_elev st_leads qt rr lvh q_waves q_leads t_inv pr in
      validate_ecg_rhythm_input rd = Raise (ValueError msg)
      \/ (validate_ecg_rhythm_input rd = Ret tt
          /\ validate_ecg_12lead_input ld = Raise (ValueError msg))
  end.

(** The outcomes of the validators and calculators of an invocation, in the
    order the entry point calls them. *)
Definition engine_outcomes (i : invocation) : list (outcome unit) :=
  match i with
  | Ascvd age sex race total_chol hdl sbp on_htn_meds smoker diabetes _ =>
      let data :=
        ascvd_data age sex race total_chol hdl sbp on_htn_meds smoker diabetes in
      [void (validate_ascvd_input data); void (ascvd data)]
  | Bp sbp dbp _ =>
      [void (validate_bp_input sbp dbp); void (bp_category sbp dbp)]
  | Cha2ds2vasc chf htn age75 diabetes stroke vascular age65_74 female _ =>
      match cha2ds2vasc_data chf htn age75 diabetes stroke vascular age65_74
              female with
      | Ret data =>
          [void (validate_cha2ds2vasc_input data); void (cha2ds2vasc data)]
      | Raise _ => []
      end
  | Ecg rate regular p st_elev st_leads qt rr lvh q_waves q_leads t_inv pr _ =>
      let rd := rhythm_data rate regular p in
      let ld := lead_data st_elev st_leads qt rr lvh q_waves q_leads t_inv pr in
      [void (validate_ecg_rhythm_input rd);
       void (validate_ecg_12lead_input ld);
       void (interpret_rhythm rate regular p);
       void (interpret_12lead_findings ld);
       void (interpret_ecg_comprehensive (dict_union rd ld))]
  end.

End Family.

(** ** Instances for the examples

    A runtime whose builtins are tabulated on the values the examples use,
    and engines that stand for the imported validators and calculators. *)

Module Demo.

#[local] Instance runtime : Runtime := {
  float_repr f :=
    if (f =? 0.20)%float then "0.2"
    else if (f =? 0.075)%float then "0.075"
    else if (f =? 0.05)%float then "0.05"
    else "0.0";
  str_repr s := "'" ++ s ++ "'";
  int_of_str s :=
    if s =? "0" then Some 0%Z else if s =? "1" then Some 1%Z else None;
  format_pct1 f :=
    if (f =? 0.20)%float then "20.0%"
    else if (f =? 0.075)%float then "7.5%"
    else if (f =? 0.05)%float then "5.0%"
    else "0.0%";
  uuid4_str n :=
    match n with
    | O => "1b9d6bcd-bbfd-4b2d-9b5d-ab8dfbbd4bed"
    | S _ => "9c858901-8a57-4791-81fe-4c455b099bc9"
    end
}.

Definition in_range (lo hi : Z) (v : option value) (field : string)
    : outcome unit :=
  match v with
  | Some (VInt z) =>
      if ((lo <=? z) && (z <=? hi))%Z then Ret tt
      else Raise (ValueError (field ++ " out of range"))
  | _ => Raise (TypeError (field ++ " must be a number"))
  end.

Definition weight (d : dict) (k : string) (w : Z) : Z :=
  match dict_get k d with
  | Some v => if truthy v then w else 0%Z
  | None => 0%Z
  end.

(** Validators that check one range each, calculators with fixed answers. *)
#[local] Instance engine : Engine := {
  validate_ascvd_input d := in_range 40 79 (dict_get "age" d) "age";
  ascvd d :=
    match dict_get "smoker" d with
    | Some v => Ret (if truthy v then 0.20 else 0.05)%float
    | None => Raise (KeyError "smoker")
    end;
  validate_bp_input sbp dbp := in_range 50 250 (Some sbp) "sbp";
  bp_category sbp dbp := Ret (VStr "Normal");
  validate_cha2ds2vasc_input d :=
    in_range 0 1 (dict_get "chf" d) "chf";
  cha2ds2vasc d :=
    Ret (VInt (weight d "chf" 1 + weight d "hypertension" 1
               + weight d "age_ge_75" 2 + weight d "diabetes" 1
               + weight d "stroke" 2 + weight d "vascular" 1
               + weight d "age_65_74" 1 + weight d "female" 1));
  validate_ecg_rhythm_input d := in_range 20 250 (dict_get "rate" d) "rate";
  validate_ecg_12lead_input d :=
    in_range 300 700 (dict_get "qt_interval_ms" d) "qt_interval_ms";
  interpret_rhythm rate regular p := Ret (VStr "Normal Sinus Rhythm");
  interpret_12lead_findings d := Ret (VDict [("findings", VList [])]);
  interpret_ecg_comprehensive d := Ret (VDict [("overall_risk", VStr "Low")])
}.

(** The same engine, except that the ASCVD validator is handed a record it
    cannot index and fails with a [TypeError]. *)
#[local] Instance faulty_engine : Engine := {
  validate_ascvd_input d := Raise (TypeError "'NoneType' object is not subscriptable");
  ascvd := @ascvd engine;
  validate_bp_input := @validate_bp_input engine;
  bp_category := @bp_category engine;
  validate_cha2ds2vasc_input := @validate_cha2ds2vasc_input engine;
  cha2ds2vasc := @cha2ds2vasc engine;
  validate_ecg_rhythm_input := @validate_ecg_rhythm_input engine;
  validate_ecg_12lead_input := @validate_ecg_12lead_input engine;
  interpret_rhythm := @interpret_rhythm engine;
  interpret_12lead_findings := @interpret_12lead_findings engine;
  interpret_ecg_comprehensive := @interpret_ecg_comprehensive engine
}.

(** An ECG with no finding, and a lead list typed in although the
    ST-elevation box is not ticked. *)
Definition quiet_ecg (st_leads : value) : invocation :=
  Ecg (VInt 75) (VBool true) (VBool true) (VBool false) st_leads (VInt 400)
      (VInt 800) (VBool false) (VBool false) (VStr "") (VBool false)
      (VInt 160) (VStr "").

(** A fresh process: nothing called, nothing logged, no UUID drawn. *)
Definition w0 : world := mkWorld [] [] 0.

End Demo.


(** A serializer for the examples: it writes the clock reading of the
    object, then the texts of the cells, one per line. *)
Module ReportDemo.

#[local] Instance serializer : Serializer := {
  output pdf :=
    list_byte_of_string
      ("created " ++ str_of_Z (created pdf) ++ nl
         ++ join nl (cell_texts (ops pdf)))
}.

End ReportDemo.

(** ** Further definitions for the properties below *)

(** The function a recorded call went to. *)
Definition call_fn (c : call) : string :=
  match c with Call fn _ => fn end.

(** The imported functions of an entry point in the order its body names
    them: the validators, then the calculators. *)
Definition plan (i : invocation) : list string :=
  (validators_of i ++ calculators_of i)%list.

(** The same click with another text in the "Patient ID" box. *)
Definition with_patient_id (i : invocation) (pid : value) : invocation :=
  match i with
  | Ascvd age sex race total_chol hdl sbp on_htn_meds smoker diabetes _ =>
      Ascvd age sex race total_chol hdl sbp on_htn_meds smoker diabetes pid
  | Bp sbp dbp _ => Bp sbp dbp pid
  | Cha2ds2vasc chf htn age75 diabetes stroke vascular age65_74 female _ =>
      Cha2ds2vasc chf htn age75 diabetes stroke vascular age65_74 female pid
  | Ecg rate regular p st_elev st_leads qt rr lvh q_waves q_leads t_inv pr _ =>
      Ecg rate regular p st_elev st_leads qt rr lvh q_waves q_leads t_inv pr pid
  end.

(** How the result text of each entry point begins. *)
Definition label (i : invocation) : string :=
  match i with
  | Ascvd _ _ _ _ _ _ _ _ _ _ => "10-Year ASCVD Risk: "
  | Bp _ _ _ => "Blood Pressure Category: "
  | Cha2ds2vasc _ _ _ _ _ _ _ _ _ => "CHA₂DS₂-VASc Score: "
  | Ecg _ _ _ _ _ _ _ _ _ _ _ _ _ => "Rhythm: "
  end.

(** The four categories of [run_ascvd], from the mildest to the gravest. *)
Definition band_rank (category : string) : nat :=
  if category =? "High" then 3
  else if category =? "Intermediate" then 2
  else if category =? "Borderline" then 1
  else 0.

(** ** ui/templates.py *)

Module Templates.

(** The builtins behind the format specification [.2f]. *)
Class NumberFormat : Type := {
  (** [format(x, ".2f")] for a float *)
  format_2f : float -> string;
  (** [float(n)] for an int, [None] when the int is too large *)
  float_of_Z : Z -> option float
}.

Definition RESULTS_TEMPLATE : string :=
  nl ++ "📊 **{condition} Risk Assessment**" ++ nl
     ++ "- Risk Score: **{score:.2f}**" ++ nl
     ++ "- Assessment: {assessment}" ++ nl
     ++ "- Recommendation: {recommendation}" ++ nl.

(** Where the scan of a format string stands: in literal text, just after a
    [{] or a [}] met in literal text, or inside a replacement field, reading
    its name or its format specification. *)
Inductive mode : Type :=
| InText
| AfterOpen
| AfterClose
| InName (name : string)
| InSpec (name spec : string).

Fixpoint all_digits (s : string) : bool :=
  match s with
  | EmptyString => true
  | String c rest =>
      (Nat.leb 48 (nat_of_ascii c) && Nat.leb (nat_of_ascii c) 57)
      && all_digits rest
  end.

Section Formatting.
Context {RT : Runtime} {NF : NumberFormat}.

(** [format(v, ".2f")] *)
Definition format_fixed2 (v : value) : outcome string :=
  match v with
  | VFloat f => Ret (format_2f f)
  | VInt z =>
      match float_of_Z z with
      | Some f => Ret (format_2f f)
      | None => Raise (OverflowError "int too large to convert to float")
      end
  | VBool b =>
      match float_of_Z (Z.b2z b) with
      | Some f => Ret (format_2f f)
      | None => Raise (OverflowError "int too large to convert to float")
      end
  | VStr _ =>
      Raise (ValueError "Unknown format code 'f' for object of type 'str'")
  | VNone | VList _ | VDict _ =>
      Raise (TypeError ("unsupported format string passed to "
                          ++ type_name v ++ ".__format__"))
  end.

(** [format(v, spec)], for the empty specification and for [.2f]; [None]
    stands for a specification that is not modelled. *)
Definition format_value (v : value) (spec : string) : option (outcome string) :=
  if spec =? "" then Some (Ret (str v))
  else if spec =? ".2f" then Some (format_fixed2 v)
  else None.

(** A replacement field [{name}] or [{name:spec}] whose name is a keyword;
    [None] stands for a positional or automatically numbered field, which
    is not modelled. *)
Definition field (kwargs : dict) (name spec : string)
    : option (outcome string) :=
  if all_digits name then None
  else
    match dict_get name kwargs with
    | None => Some (Raise (KeyError name))
    | Some v => format_value v spec
    end.

(** The text [s] followed by what formatting the rest gives. *)
Definition emit (s : string) (r : option (outcome string))
    : option (outcome string) :=
  match r with
  | Some (Ret t) => Some (Ret (s ++ t))
  | Some (Raise e) => Some (Raise e)
  | None => None
  end.

(** A replacement field, then the rest: an exception raised by the field
    comes before anything the rest may raise. *)
Definition emit_field (f r : option (outcome string))
    : option (outcome string) :=
  match f with
  | Some (Ret s) => emit s r
  | Some (Raise e) => Some (Raise e)
  | None => None
  end.

(** [template.format] with keyword arguments only, scanning the template
    from left to right.
    [None] stands for syntax that is not modelled: conversions ([!r]),
    attribute and index access in a field name, nested fields. *)
Fixpoint format_from (m : mode) (kwargs : dict) (s : string)
    : option (outcome string) :=
  match s with
  | EmptyString =>
      match m with
      | InText => Some (Ret "")
      | AfterOpen =>
          Some (Raise (ValueError "Single '{' encountered in format string"))
      | AfterClose =>
          Some (Raise (ValueError "Single '}' encountered in format string"))
      | InName _ | InSpec _ _ =>
          Some (Raise (ValueError "expected '}' before end of string"))
      end
  | String c rest =>
      let in_name (name : string) :=
        if Ascii.eqb c "}"
        then emit_field (field kwargs name "") (format_from InText kwargs rest)
        else if Ascii.eqb c ":" then format_from (InSpec name "") kwargs rest
        else if Ascii.eqb c "!" || Ascii.eqb c "." || Ascii.eqb c "["
                || Ascii.eqb c "{"
        then None
        else format_from (InName (name ++ String c "")) kwargs rest in
      match m with
      | InText =>
          if Ascii.eqb c "{" then format_from AfterOpen kwargs rest
          else if Ascii.eqb c "}" then format_from AfterClose kwargs rest
          else emit (String c "") (format_from InText kwargs rest)
      | AfterOpen =>
          if Ascii.eqb c "{" then emit "{" (format_from InText kwargs rest)
          else in_name ""
      | AfterClose =>
          if Ascii.eqb c "}" then emit "}" (format_from InText kwargs rest)
          else
            Some (Raise (ValueError "Single '}' encountered in format string"))
      | InName name => in_name name
      | InSpec name spec =>
          if Ascii.eqb c "}"
          then emit_field (field kwargs name spec)
                 (format_from InText kwargs rest)
          else if Ascii.eqb c "{" then None
          else format_from (InSpec name (spec ++ String c "")) kwargs rest
      end
  end.

Definition str_format (template : string) (kwargs : dict)
    : option (outcome string) :=
  format_from InText kwargs template.

Definition get_results_message (condition score assessment
    recommendation : value) : option (outcome string) :=
  str_format RESULTS_TEMPLATE
    [ ("condition", condition); ("score", score);
      ("assessment", assessment); ("recommendation", recommendation) ].

End Formatting.

End Templates.
Import Templates.

(** ** Further instances for the examples *)

Module Cases.

(** The example engine, with a blood-pressure classifier that refuses a
    diastolic pressure above the systolic one. *)
#[local] Instance picky_engine : Engine := {
  validate_ascvd_input := @validate_ascvd_input Demo.engine;
  ascvd := @ascvd Demo.engine;
  validate_bp_input := @validate_bp_input Demo.engine;
  bp_category sbp dbp :=
    match sbp, dbp with
    | VInt s, VInt d =>
        if (s <? d)%Z then Raise (ValueError "diastolic above systolic")
        else Ret (VStr "Normal")
    | _, _ => Raise (TypeError "pressures must be numbers")
    end;
  validate_cha2ds2vasc_input := @validate_cha2ds2vasc_input Demo.engine;
  cha2ds2vasc := @cha2ds2vasc Demo.engine;
  validate_ecg_rhythm_input := @validate_ecg_rhythm_input Demo.engine;
  validate_ecg_12lead_input := @validate_ecg_12lead_input Demo.engine;
  interpret_rhythm := @interpret_rhythm Demo.engine;
  interpret_12lead_findings := @interpret_12lead_findings Demo.engine;
  interpret_ecg_comprehensive := @interpret_ecg_comprehensive Demo.engine
}.

(** The example engine, with a 12-lead interpretation whose result has no
    ["findings"] key. *)
#[local] Instance bare_engine : Engine := {
  validate_ascvd_input := @validate_ascvd_input Demo.engine;
  ascvd := @ascvd Demo.engine;
  validate_bp_input := @validate_bp_input Demo.engine;
  bp_category := @bp_category Demo.engine;
  validate_cha2ds2vasc_input := @validate_cha2ds2vasc_input Demo.engine;
  cha2ds2vasc := @cha2ds2vasc Demo.engine;
  validate_ecg_rhythm_input := @validate_ecg_rhythm_input Demo.engine;
  validate_ecg_12lead_input := @validate_ecg_12lead_input Demo.engine;
  interpret_rhythm := @interpret_rhythm Demo.engine;
  interpret_12lead_findings d := Ret (VDict [("abnormal", VBool false)]);
  interpret_ecg_comprehensive := @interpret_ecg_comprehensive Demo.engine
}.

(** Number formatting tabulated on the scores of the examples. *)
#[local] Instance number_format : NumberFormat := {
  format_2f f :=
    if (f =? 0.20)%float then "0.20"
    else if (f =? 7.5)%float then "7.50"
    else "0.00";
  float_of_Z z :=
    if (z =? 0)%Z then Some 0%float
    else if (z =? 1)%Z then Some 1%float
    else None
}.

End Cases.

(** * Properties *)

(** ** The order of binary64 floats *)

Section FloatOrder.

Ltac fold_pos_compare :=
  repeat match goal with
  | |- context [Pos.compare_cont Eq ?a ?b] =>
      change (Pos.compare_cont Eq a b) with (Pos.compare a b)
  | H : context [Pos.compare_cont Eq ?a ?b] |- _ =>
      change (Pos.compare_cont Eq a b) with (Pos.compare a b) in H
  end.

Ltac split_compare :=
  repeat match goal with
  | H : context [Z.compare ?a ?b] |- _ => destruct (Z.compare_spec a b)
  | |- context [Z.compare ?a ?b] => destruct (Z.compare_spec a b)
  | H : context [Pos.compare ?a ?b] |- _ => destruct (Pos.compare_spec a b)
  | |- context [Pos.compare ?a ?b] => destruct (Pos.compare_spec a b)
  end.

Lemma SFcompare_antisym x y :
  SFcompare y x = option_map CompOpp (SFcompare x y).
Proof.
  destruct x as [[]|[]| |[] m1 e1], y as [[]|[]| |[] m2 e2];
    cbn; try reflexivity;
    fold_pos_compare; split_compare; cbn; subst;
    try reflexivity; try lia.
Qed.

Lemma SFcompare_lt_le_trans x y z :
  SFcompare x y = Some Lt -> SFleb y z = true -> SFcompare x z = Some Lt.
Proof.
  unfold SFleb.
  destruct x as [[]|[]| |[] m1 e1], y as [[]|[]| |[] m2 e2],
           z as [[]|[]| |[] m3 e3];
    cbn; try discriminate; try reflexivity;
    fold_pos_compare; intros H1 H2; split_compare; cbn in *; subst;
    try reflexivity; try discriminate; try lia.
Qed.

(** [x < y] excludes [y <= x]. *)
Lemma ltb_not_leb (x y : float) :
  (x <? y)%float = true -> (y <=? x)%float = false.
Proof.
  rewrite ltb_spec, leb_spec. unfold SFltb, SFleb.
  rewrite (SFcompare_antisym (Prim2SF x) (Prim2SF y)).
  destruct (SFcompare (Prim2SF x) (Prim2SF y)) as [[]|]; cbn; congruence.
Qed.

Lemma ltb_leb_trans (x y z : float) :
  (x <? y)%float = true -> (y <=? z)%float = true -> (x <? z)%float = true.
Proof.
  rewrite !ltb_spec, leb_spec. unfold SFltb at 1.
  intros H1 H2.
  destruct (SFcompare (Prim2SF x) (Prim2SF y)) as [[]|] eqn:Hxy;
    try discriminate.
  unfold SFltb.
  rewrite (SFcompare_lt_le_trans _ _ _ Hxy H2). reflexivity.
Qed.

(** Below a breakpoint is below every larger breakpoint. *)
Lemma below_breakpoint (x lo hi : float) :
  (lo <=? hi)%float = true -> (x <? lo)%float = true ->
  (hi <=? x)%float = false.
Proof.
  intros Hb Hx. apply ltb_not_leb. exact (ltb_leb_trans x lo hi Hx Hb).
Qed.

End FloatOrder.

(** ** The risk bands of [run_ascvd] *)

Section Ascvd.
Context {RT : Runtime} {E : Engine}.

Lemma ascvd_category_high risk :
  (0.20 <=? risk)%float = true -> ascvd_category risk = "High".
Proof. intros H. unfold ascvd_category. rewrite H. reflexivity. Qed.

Lemma ascvd_category_intermediate risk :
  (0.075 <=? risk)%float = true -> (risk <? 0.20)%float = true ->
  ascvd_category risk = "Intermediate".
Proof.
  intros Hlo Hhi. unfold ascvd_category.
  rewrite (ltb_not_leb _ _ Hhi), Hlo. reflexivity.
Qed.

Lemma ascvd_category_borderline risk :
  (0.05 <=? risk)%float = true -> (risk <? 0.075)%float = true ->
  ascvd_category risk = "Borderline".
Proof.
  intros Hlo Hhi. unfold ascvd_category.
  rewrite (below_breakpoint risk 0.075 0.20 eq_refl Hhi).
  rewrite (ltb_not_leb _ _ Hhi), Hlo. reflexivity.
Qed.

Lemma ascvd_category_low risk :
  (risk <? 0.05)%float = true -> ascvd_category risk = "Low".
Proof.
  intros Hhi. unfold ascvd_category.
  rewrite (below_breakpoint risk 0.05 0.20 eq_refl Hhi).
  rewrite (below_breakpoint risk 0.05 0.075 eq_refl Hhi).
  rewrite (ltb_not_leb _ _ Hhi). reflexivity.
Qed.

(** What [run_ascvd] returns when the validator accepts the record and the
    calculator returns a risk. *)
Lemma run_ascvd_success age sex race total_chol hdl sbp on_htn_meds smoker
    diabetes patient_id w risk :
  let data :=
    ascvd_data age sex race total_chol hdl sbp on_htn_meds smoker diabetes in
  validate_ascvd_input data = Ret tt ->
  ascvd data = Ret risk ->
  fst (run_ascvd age sex race total_chol hdl sbp on_htn_meds smoker diabetes
         patient_id w)
  = Ret ("10-Year ASCVD Risk: " ++ format_pct1 risk
           ++ " (" ++ ascvd_category risk ++ ")").
Proof.
  intros data Hv Hc.
  unfold run_ascvd, try_except_ValueError, bind, call1.
  fold data. rewrite Hv, Hc. reflexivity.
Qed.

(** C1. Whenever the record is accepted and the calculator returns a risk,
    [run_ascvd] returns the text ["10-Year ASCVD Risk: <risk> (<category>)"]
    whose category it chose itself by the fixed breakpoints, each band closed
    below and open above: [risk >= 0.20] is "High", [0.075 <= risk < 0.20] is
    "Intermediate", [0.05 <= risk < 0.075] is "Borderline", [risk < 0.05] is
    "Low"; a risk of exactly 0.20, 0.075 or 0.05 is "High", "Intermediate"
    or "Borderline". *)
Theorem run_ascvd_category_bands age sex race total_chol hdl sbp on_htn_meds
    smoker diabetes patient_id w risk :
  let data :=
    ascvd_data age sex race total_chol hdl sbp on_htn_meds smoker diabetes in
  validate_ascvd_input data = Ret tt ->
  ascvd data = Ret risk ->
  exists category,
    fst (run_ascvd age sex race total_chol hdl sbp on_htn_meds smoker
           diabetes patient_id w)
    = Ret ("10-Year ASCVD Risk: " ++ format_pct1 risk
             ++ " (" ++ category ++ ")")
    /\ ((0.20 <=? risk)%float = true -> category = "High")
    /\ ((0.075 <=? risk)%float = true -> (risk <? 0.20)%float = true ->
        category = "Intermediate")
    /\ ((0.05 <=? risk)%float = true -> (risk <? 0.075)%float = true ->
        category = "Borderline")
    /\ ((risk <? 0.05)%float = true -> category = "Low")
    /\ (risk = 0.20%float -> category = "High")
    /\ (risk = 0.075%float -> category = "Intermediate")
    /\ (risk = 0.05%float -> category = "Borderline").
Proof.
  intros data Hv Hc. exists (ascvd_category risk).
  split; [ exact (run_ascvd_success _ _ _ _ _ _ _ _ _ _ _ _ Hv Hc) | ].
  repeat split.
  - apply ascvd_category_high.
  - apply ascvd_category_intermediate.
  - apply ascvd_category_borderline.
  - apply ascvd_category_low.
  - intros ->. reflexivity.
  - intros ->. reflexivity.
  - intros ->. reflexivity.
Qed.

End Ascvd.

(** A smoker aged 60 under the example engine: the risk is exactly 0.20. *)
Lemma run_ascvd_category_bands_witness :
  fst (@run_ascvd Demo.runtime Demo.engine
         (VInt 60) (VStr "Male") (VStr "White") (VInt 200) (VInt 50)
         (VInt 120) (VBool false) (VBool true) (VBool false) (VStr "")
         Demo.w0)
  = Ret "10-Year ASCVD Risk: 20.0% (High)".
Proof.
  destruct (@run_ascvd_category_bands Demo.runtime Demo.engine
              (VInt 60) (VStr "Male") (VStr "White") (VInt 200) (VInt 50)
              (VInt 120) (VBool false) (VBool true) (VBool false) (VStr "")
              Demo.w0 0.20%float eq_refl eq_refl)
    as [category [Hrun [Hhigh _]]].
  rewrite Hrun, (Hhigh eq_refl). reflexivity.
Defined.

(** ** Validation, faults, determinism and the usage log *)

Section Runs.
Context {RT : Runtime} {E : Engine}.

Lemma skipn_length_app {A} (l t : list A) : skipn (length l) (l ++ t) = t.
Proof. induction l as [|x l IH]; [reflexivity | exact IH]. Qed.

Lemma new_calls_nil w : new_calls w w = [].
Proof.
  unfold new_calls. rewrite <- (app_nil_r (calls w)) at 2.
  apply skipn_length_app.
Qed.

(** Unfolds an entry point down to the outcomes of the imported functions. *)
Ltac unfold_run :=
  unfold run, run_ascvd, run_bp, run_cha2ds2vasc, run_ecg,
    try_except_ValueError, bind, call1, call2, call3, lift, log_usage, ret,
    record_call, new_calls.

(** Case analysis on the next outcome or exception the code inspects. *)
Ltac next_case :=
  match goal with
  | |- context [match ?x with _ => _ end] =>
      lazymatch type of x with
      | outcome _ => destruct x as [?|?] eqn:?
      | exn => destruct x
      | unit => destruct x
      end
  end.

Ltac run_cases := unfold_run; repeat (cbn [fst snd calls log draws]; next_case).

Ltac trace_done :=
  cbn [fst snd calls log draws];
  repeat rewrite <- app_assoc;
  try rewrite skipn_length_app;
  try (rewrite <- (app_nil_r (calls _)) at 2; rewrite skipn_length_app).

Lemma ordered_calls (i : invocation) (w : world) :
  validated_first (validators_of i) (calculators_of i) []
    (new_calls w (snd (run i w))) = true.
Proof.
  destruct i; run_cases; trace_done; try reflexivity.
Qed.

Lemma validation_failure_reported (i : invocation) (w : world) (msg : string) :
  validation_raises i msg ->
  fst (run i w) = Ret ("❌ Input Error: " ++ msg)
  /\ no_call_to (calculators_of i) (new_calls w (snd (run i w))) = true.
Proof.
  destruct i; cbn [validation_raises]; intros H.
  - unfold_run. rewrite H. split; [reflexivity | trace_done; reflexivity].
  - unfold_run. rewrite H. split; [reflexivity | trace_done; reflexivity].
  - destruct H as [data [Hd Hv]]. unfold_run. rewrite Hd, Hv.
    split; [reflexivity | trace_done; reflexivity].
  - destruct H as [H | [H1 H2]]; unfold_run.
    + rewrite H. split; [reflexivity | trace_done; reflexivity].
    + rewrite H1, H2. split; [reflexivity | trace_done; reflexivity].
Qed.

(** C2. In every invocation of the four entry points, each call to a
    calculator comes after the calls to the validators of that entry point;
    and when validation raises a [ValueError], no calculator is called and
    the entry point returns the text ["❌ Input Error: "] followed by the
    text of the exception, instead of raising. *)
Theorem validation_precedes_calculation (i : invocation) (w : world) :
  validated_first (validators_of i) (calculators_of i) []
    (new_calls w (snd (run i w))) = true
  /\ forall msg,
       validation_raises i msg ->
       fst (run i w) = Ret ("❌ Input Error: " ++ msg)
       /\ no_call_to (calculators_of i) (new_calls w (snd (run i w))) = true.
Proof.
  split.
  - apply ordered_calls.
  - intros msg. apply validation_failure_reported.
Qed.

(** C4, as the code has it. When the first of the validators and calculators
    of an invocation to raise raises an exception that is not a [ValueError],
    the entry point raises that same exception to its caller: it returns no
    text, and it writes nothing to the log. *)
Theorem other_faults_propagate (i : invocation) (w : world) (e : exn) :
  first_raise (engine_outcomes i) = Some e ->
  is_ValueError e = false ->
  fst (run i w) = Raise e /\ log (snd (run i w)) = log w.
Proof.
  destruct i; unfold engine_outcomes; run_cases;
    cbn [void first_raise fst snd calls log draws is_ValueError];
    intros H Hne; try discriminate;
    inversion H; subst; try discriminate; split; reflexivity.
Qed.

(** C5. The value an entry point returns (or the exception it raises) is the
    same whatever the log holds, whatever calls were made before and however
    many UUIDs were drawn: two invocations with the same arguments give the
    same result. *)
Theorem run_deterministic (i : invocation) (w1 w2 : world) :
  fst (run i w1) = fst (run i w2).
Proof.
  destruct i; run_cases; reflexivity.
Qed.

Lemma count_nl_app (a b : string) : count_nl (a ++ b) = count_nl a + count_nl b.
Proof.
  induction a as [|c a IH]; [reflexivity |].
  cbn [append count_nl]. rewrite IH. lia.
Qed.

Lemma count_nl_usage_message session tool data out :
  count_nl out <= count_nl (usage_message session tool data out).
Proof. unfold usage_message. repeat rewrite count_nl_app. lia. Qed.

Lemma count_nl_error (msg : string) :
  count_nl ("❌ Input Error: " ++ msg) = count_nl ("Error: " ++ msg).
Proof. reflexivity. Qed.

(** C6, as the code has it. Every invocation that returns a text, on the
    success path or after a [ValueError], hands exactly one message to
    [logging.info]: ["session=<id> tool=<name> inputs=<record> outputs=<out>"]
    with the first eight characters of a fresh UUID, the tool name, the input
    record, and as [<out>] the returned text itself or, after a
    [ValueError], ["Error: "] and the text of the exception.  The message
    holds at least as many line feeds as the returned text. *)
Theorem one_log_message_per_return (i : invocation) (w : world) (text : string) :
  fst (run i w) = Ret text ->
  exists data out,
    inputs i = Ret data
    /\ log (snd (run i w))
       = (log w ++ [usage_message (session_id (draws w)) (tool_name i)
                      (VDict data) out])%list
    /\ draws (snd (run i w)) = S (draws w)
    /\ (out = text
        \/ exists msg, out = "Error: " ++ msg
                       /\ text = "❌ Input Error: " ++ msg)
    /\ count_nl text
       <= count_nl (usage_message (session_id (draws w)) (tool_name i)
                      (VDict data) out).
Proof.
  destruct i; unfold inputs, tool_name; run_cases;
    cbn [fst snd calls log draws]; intros H; try discriminate;
    injection H as <-;
    eexists; eexists; (split; [reflexivity |]);
    (split; [reflexivity |]); (split; [reflexivity |]).
  all: try (split; [left; reflexivity | apply count_nl_usage_message]).
  all: split; [right; eexists; split; reflexivity |].
  all: eapply Nat.le_trans; [| apply count_nl_usage_message].
  all: apply Nat.eq_le_incl; apply count_nl_error.
Qed.

End Runs.

(** ** The records of [run_ecg] and [run_cha2ds2vasc] *)

Section Records.
Context {RT : Runtime} {E : Engine}.

Lemma In_prefix {A} (n : nat) (l : list A) (x : A) :
  In x (firstn n l) -> In x l.
Proof.
  revert l. induction n as [|n IH]; intros [|y l]; cbn; try contradiction.
  intros [H | H]; [left; exact H | right; exact (IH l H)].
Qed.

Lemma optional_leads_spec key flag leads :
  optional_leads key flag leads
  = if truthy flag && truthy leads then [(key, leads)] else [].
Proof.
  unfold optional_leads, and_.
  destruct (truthy flag) eqn:Hflag; cbn [andb].
  - destruct (truthy leads); reflexivity.
  - rewrite Hflag. reflexivity.
Qed.

(** With a falsy flag the leads do not enter the display at all. *)
Lemma optional_leads_falsy key flag leads leads' :
  truthy flag = false ->
  optional_leads key flag leads = optional_leads key flag leads'.
Proof. intros H. rewrite !optional_leads_spec, H. reflexivity. Qed.

(** The two lead-list keys of the lead record, and of the merged record the
    comprehensive interpretation and the log are given. *)
Lemma lead_keys rate regular p st_elev st_leads qt rr lvh q_waves q_leads
    t_inv pr :
  let ld := lead_data st_elev st_leads qt rr lvh q_waves q_leads t_inv pr in
  let merged := dict_union (rhythm_data rate regular p) ld in
  let st := if truthy st_elev && truthy st_leads then Some st_leads else None in
  let q := if truthy q_waves && truthy q_leads then Some q_leads else None in
  dict_get "st_elevation_leads" ld = st
  /\ dict_get "q_wave_leads" ld = q
  /\ dict_get "st_elevation_leads" merged = st
  /\ dict_get "q_wave_leads" merged = q.
Proof.
  unfold lead_data, dict_union, rhythm_data.
  rewrite !optional_leads_spec.
  destruct (truthy st_elev && truthy st_leads),
           (truthy q_waves && truthy q_leads);
    repeat split; reflexivity.
Qed.

Lemma run_ecg_calls rate regular p st_elev st_leads qt rr lvh q_waves q_leads
    t_inv pr pid w :
  exists n,
    new_calls w (snd (run_ecg rate regular p st_elev st_leads qt rr lvh
                        q_waves q_leads t_inv pr pid w))
    = firstn n (ecg_calls rate regular p st_elev st_leads qt rr lvh q_waves
                  q_leads t_inv pr).
Proof.
  unfold ecg_calls.
  unfold run_ecg, try_except_ValueError, bind, call1, call2, call3, lift,
    log_usage, ret, record_call, new_calls.
  repeat (cbn [fst snd calls log draws];
          match goal with
          | |- context [match ?x with _ => _ end] =>
              lazymatch type of x with
              | outcome _ => destruct x as [?|?] eqn:?
              | exn => destruct x
              | unit => destruct x
              end
          end).
  all: cbn [fst snd calls log draws]; repeat rewrite <- app_assoc;
    rewrite skipn_length_app.
  all: first [ exists 5; reflexivity | exists 4; reflexivity
             | exists 3; reflexivity | exists 2; reflexivity
             | exists 1; reflexivity ].
Qed.

(** C3. In [run_ecg] a lead-list key is in the lead record (and in the merged
    record) only when its flag is truthy; and when the flag is falsy the
    whole invocation — the calls made to the validators and to the
    interpretation functions with their arguments, the message logged, the
    text returned or the exception raised — is the same whatever lead list
    came with the flag, so the stray leads reach nothing and change
    nothing. *)
Theorem stray_leads_are_dropped rate regular p st_elev st_leads qt rr lvh
    q_waves q_leads t_inv pr pid w :
  let ld := lead_data st_elev st_leads qt rr lvh q_waves q_leads t_inv pr in
  let merged := dict_union (rhythm_data rate regular p) ld in
  (forall d, d = ld \/ d = merged ->
     (dict_get "st_elevation_leads" d <> None -> truthy st_elev = true)
     /\ (dict_get "q_wave_leads" d <> None -> truthy q_waves = true))
  /\ (truthy st_elev = false ->
      forall leads',
        run_ecg rate regular p st_elev st_leads qt rr lvh q_waves q_leads
          t_inv pr pid w
        = run_ecg rate regular p st_elev leads' qt rr lvh q_waves q_leads
            t_inv pr pid w)
  /\ (truthy q_waves = false ->
      forall leads',
        run_ecg rate regular p st_elev st_leads qt rr lvh q_waves q_leads
          t_inv pr pid w
        = run_ecg rate regular p st_elev st_leads qt rr lvh q_waves leads'
            t_inv pr pid w).
Proof.
  intros ld merged.
  destruct (lead_keys rate regular p st_elev st_leads qt rr lvh q_waves
              q_leads t_inv pr) as [Hst [Hq [Hst' Hq']]].
  fold ld in Hst, Hq, Hst', Hq'. fold merged in Hst', Hq'.
  split; [| split].
  - intros d [-> | ->]; split; intros Hin.
    + rewrite Hst in Hin. destruct (truthy st_elev); [reflexivity |].
      cbn in Hin. congruence.
    + rewrite Hq in Hin. destruct (truthy q_waves); [reflexivity |].
      cbn in Hin. congruence.
    + rewrite Hst' in Hin. destruct (truthy st_elev); [reflexivity |].
      cbn in Hin. congruence.
    + rewrite Hq' in Hin. destruct (truthy q_waves); [reflexivity |].
      cbn in Hin. congruence.
  - intros Hflag leads'. unfold run_ecg, lead_data.
    rewrite (optional_leads_falsy "st_elevation_leads" _ st_leads leads' Hflag).
    reflexivity.
  - intros Hflag leads'. unfold run_ecg, lead_data.
    rewrite (optional_leads_falsy "q_wave_leads" _ q_leads leads' Hflag).
    reflexivity.
Qed.

(** C9. In [run_ecg] a lead-list key is in the lead record exactly when its
    flag is truthy and the lead list given is truthy (not empty), and then
    its value is that lead list; the same holds of the merged record.  Every
    call [run_ecg] makes is one of [ecg_calls], which pass these records, so
    a lead list that reaches a validator or an interpretation function in
    the record is never empty. *)
Theorem lead_list_present_iff_flag_and_nonempty rate regular p st_elev
    st_leads qt rr lvh q_waves q_leads t_inv pr pid w :
  let ld := lead_data st_elev st_leads qt rr lvh q_waves q_leads t_inv pr in
  let merged := dict_union (rhythm_data rate regular p) ld in
  (forall d, d = ld \/ d = merged ->
     (forall v, dict_get "st_elevation_leads" d = Some v
                <-> truthy st_elev = true /\ truthy st_leads = true
                    /\ v = st_leads)
     /\ (forall v, dict_get "q_wave_leads" d = Some v
                   <-> truthy q_waves = true /\ truthy q_leads = true
                       /\ v = q_leads)
     /\ (forall v, dict_get "st_elevation_leads" d = Some v
                   \/ dict_get "q_wave_leads" d = Some v ->
                   truthy v = true))
  /\ (forall c,
        In c (new_calls w (snd (run_ecg rate regular p st_elev st_leads qt rr
                                  lvh q_waves q_leads t_inv pr pid w))) ->
        In c (ecg_calls rate regular p st_elev st_leads qt rr lvh q_waves
                q_leads t_inv pr)).
Proof.
  intros ld merged.
  destruct (lead_keys rate regular p st_elev st_leads qt rr lvh q_waves
              q_leads t_inv pr) as [Hst [Hq [Hst' Hq']]].
  fold ld in Hst, Hq, Hst', Hq'. fold merged in Hst', Hq'.
  assert (Hiff : forall flag leads o v,
            o = (if truthy flag && truthy leads then Some leads else None) ->
            (o = Some v
             <-> truthy flag = true /\ truthy leads = true /\ v = leads)).
  { intros flag leads o v ->.
    destruct (truthy flag), (truthy leads); cbn [andb]; split.
    all: try (intros [Ha [Hb Hc]]; congruence).
    all: try (intros H; discriminate H).
    intros H; injection H as <-; auto. }
  split.
  - intros d Hd.
    assert (Hst_d : dict_get "st_elevation_leads" d
                    = if truthy st_elev && truthy st_leads
                      then Some st_leads else None)
      by (destruct Hd as [-> | ->]; assumption).
    assert (Hq_d : dict_get "q_wave_leads" d
                   = if truthy q_waves && truthy q_leads
                     then Some q_leads else None)
      by (destruct Hd as [-> | ->]; assumption).
    split; [| split].
    + intros v. apply Hiff, Hst_d.
    + intros v. apply Hiff, Hq_d.
    + intros v [Hv | Hv].
      * apply (Hiff _ _ _ _ Hst_d) in Hv. destruct Hv as [_ [Hne ->]].
        exact Hne.
      * apply (Hiff _ _ _ _ Hq_d) in Hv. destruct Hv as [_ [Hne ->]].
        exact Hne.
  - intros c Hc.
    destruct (run_ecg_calls rate regular p st_elev st_leads qt rr lvh q_waves
                q_leads t_inv pr pid w) as [n Hn].
    rewrite Hn in Hc. exact (In_prefix _ _ _ Hc).
Qed.

(** The record of [run_cha2ds2vasc] holds the eight keys, each with an
    [int]. *)
Lemma cha2ds2vasc_data_ints chf htn age75 diabetes stroke vascular age65_74
    female d :
  cha2ds2vasc_data chf htn age75 diabetes stroke vascular age65_74 female
  = Ret d ->
  exists i1 i2 i3 i4 i5 i6 i7 i8,
    d = [ ("chf", VInt i1); ("hypertension", VInt i2);
          ("age_ge_75", VInt i3); ("diabetes", VInt i4);
          ("stroke", VInt i5); ("vascular", VInt i6);
          ("age_65_74", VInt i7); ("female", VInt i8) ]
    /\ int chf = Ret i1 /\ int htn = Ret i2 /\ int age75 = Ret i3
    /\ int diabetes = Ret i4 /\ int stroke = Ret i5 /\ int vascular = Ret i6
    /\ int age65_74 = Ret i7 /\ int female = Ret i8.
Proof.
  unfold cha2ds2vasc_data.
  destruct (int chf) as [i1|]; [| discriminate].
  destruct (int htn) as [i2|]; [| discriminate].
  destruct (int age75) as [i3|]; [| discriminate].
  destruct (int diabetes) as [i4|]; [| discriminate].
  destruct (int stroke) as [i5|]; [| discriminate].
  destruct (int vascular) as [i6|]; [| discriminate].
  destruct (int age65_74) as [i7|]; [| discriminate].
  destruct (int female) as [i8|]; [| discriminate].
  intros H. injection H as <-.
  exists i1, i2, i3, i4, i5, i6, i7, i8. repeat split; reflexivity.
Qed.

(** C10. Every call [run_cha2ds2vasc] makes to the validator or to the scorer
    passes one record, the one built from the eight [int(...)] coercions: it
    has the eight keys in order and every value in it is an [int]; for
    checkbox inputs each value is 0 or 1, the [int] of the boolean.  (When a
    coercion raises, no call is made.) *)
Theorem cha2ds2vasc_record_holds_ints chf htn age75 diabetes stroke vascular
    age65_74 female pid w :
  (forall c,
     In c (new_calls w (snd (run_cha2ds2vasc chf htn age75 diabetes stroke
                               vascular age65_74 female pid w))) ->
     exists fn d,
       c = Call fn [VDict d]
       /\ mem fn ["validate_cha2ds2vasc_input"; "cha2ds2vasc"] = true
       /\ cha2ds2vasc_data chf htn age75 diabetes stroke vascular age65_74
            female = Ret d
       /\ dict_keys d
          = ["chf"; "hypertension"; "age_ge_75"; "diabetes"; "stroke";
             "vascular"; "age_65_74"; "female"]
       /\ forallb (fun kv => is_int (snd kv)) d = true)
  /\ (forall b1 b2 b3 b4 b5 b6 b7 b8,
        cha2ds2vasc_data (VBool b1) (VBool b2) (VBool b3) (VBool b4)
          (VBool b5) (VBool b6) (VBool b7) (VBool b8)
        = Ret [ ("chf", VInt (Z.b2z b1)); ("hypertension", VInt (Z.b2z b2));
                ("age_ge_75", VInt (Z.b2z b3)); ("diabetes", VInt (Z.b2z b4));
                ("stroke", VInt (Z.b2z b5)); ("vascular", VInt (Z.b2z b6));
                ("age_65_74", VInt (Z.b2z b7)); ("female", VInt (Z.b2z b8)) ]).
Proof.
  split.
  - intros c.
    destruct (cha2ds2vasc_data chf htn age75 diabetes stroke vascular
                age65_74 female) as [d|e] eqn:Hd.
    + destruct (cha2ds2vasc_data_ints _ _ _ _ _ _ _ _ _ Hd)
        as (i1 & i2 & i3 & i4 & i5 & i6 & i7 & i8 & Hshape & _).
      assert (Hok : forall fn,
                mem fn ["validate_cha2ds2vasc_input"; "cha2ds2vasc"] = true ->
                exists fn' d',
                  Call fn [VDict d] = Call fn' [VDict d']
                  /\ mem fn' ["validate_cha2ds2vasc_input"; "cha2ds2vasc"] = true
                  /\ Ret d = Ret d'
                  /\ dict_keys d'
                     = ["chf"; "hypertension"; "age_ge_75"; "diabetes";
                        "stroke"; "vascular"; "age_65_74"; "female"]
                  /\ forallb (fun kv => is_int (snd kv)) d' = true).
      { intros fn Hfn. exists fn, d. rewrite Hshape.
        repeat split; try reflexivity. exact Hfn. }
      unfold run_cha2ds2vasc, try_except_ValueError, bind, call1, lift,
        log_usage, ret, record_call, new_calls.
      rewrite Hd.
      destruct (validate_cha2ds2vasc_input d) as [[]|[]];
        [ destruct (cha2ds2vasc d) as [score|[]] | .. ].
      all: cbn [fst snd calls log draws]; repeat rewrite <- app_assoc;
        rewrite skipn_length_app; cbn [app In].
      all: intros Hin; repeat destruct Hin as [<- | Hin]; try contradiction.
      all: apply Hok; reflexivity.
    + unfold run_cha2ds2vasc, bind, lift. rewrite Hd.
      cbn [snd]. rewrite new_calls_nil. intros [].
  - intros. destruct b1, b2, b3, b4, b5, b6, b7, b8; reflexivity.
Qed.

End Records.

(** ** The PDF report *)

Section Report.
Context {RT : Runtime} {SZ : Serializer}.

Lemma add_item_spec pdf kv :
  add_item pdf kv
  = if latin1 (item_text kv)
    then Ret (mkFPDF (created pdf) (ops pdf ++ item_ops kv))
    else Raise (OtherException "FPDFUnicodeEncodingException" (item_text kv)).
Proof.
  destruct kv as [key value]. unfold add_item, cell, ln, add_op, item_text.
  cbn [fst snd created ops].
  destruct (latin1 (str key ++ ": " ++ str value)); [| reflexivity].
  unfold item_ops. cbn [fst snd]. rewrite <- app_assoc. reflexivity.
Qed.

(** The loop appends the calls of the entries, one entry after the other,
    and raises at the first entry whose text is refused. *)
Lemma add_items_spec data pdf :
  add_items data pdf
  = match first_refused (map item_text data) with
    | None => Ret (mkFPDF (created pdf) (ops pdf ++ flat_map item_ops data))
    | Some refused =>
        Raise (OtherException "FPDFUnicodeEncodingException" refused)
    end.
Proof.
  revert pdf. unfold first_refused.
  induction data as [|kv data IH]; intros pdf;
    cbn [add_items map find flat_map].
  - rewrite app_nil_r. destruct pdf; reflexivity.
  - rewrite add_item_spec.
    destruct (latin1 (item_text kv)); cbn [negb]; [| reflexivity].
    rewrite IH. cbn [created ops].
    destruct (find (fun t => negb (latin1 t)) (map item_text data));
      [reflexivity |].
    rewrite <- app_assoc. reflexivity.
Qed.

Lemma cell_texts_items data :
  cell_texts (flat_map item_ops data) = map item_text data.
Proof.
  induction data as [|kv data IH]; [reflexivity |].
  cbn [flat_map map app cell_texts item_ops]. rewrite IH. reflexivity.
Qed.

(** What a call gives, in either mode: the exception for the first text
    refused, or the bytes (or their base64 text) of the document stamped
    [now] that holds the title and the entries. *)
Lemma create_pdf_report_spec data title return_base64 now :
  create_pdf_report data title return_base64 now
  = match first_refused (title :: map item_text data) with
    | Some refused =>
        Raise (OtherException "FPDFUnicodeEncodingException" refused)
    | None =>
        let doc :=
          mkFPDF now ([AddPage; SetFont "Arial" "B" 16; Cell 0 10 title true;
                       SetFont "Arial" "" 12] ++ flat_map item_ops data) in
        if return_base64 then Ret (Text (decode (b64encode (output doc))))
        else Ret (Bytes (output doc))
    end.
Proof.
  unfold create_pdf_report, first_refused, cell. cbv zeta. cbn [find].
  destruct (latin1 title); cbn [negb]; [| reflexivity].
  rewrite add_items_spec. unfold first_refused.
  destruct (find (fun t => negb (latin1 t)) (map item_text data));
    reflexivity.
Qed.


(** C8, as the code has it. When the title and every line are latin-1 text,
    the document [create_pdf_report] serializes, in either mode, starts a
    page, writes the title in Arial bold 16 and then, in Arial 12, one cell
    per entry of the dict in iteration order, after a line break each; the
    text of that cell is [str(key)], [": "] and [str(value)]: the cells are
    the title followed by exactly one line per entry, none dropped, added or
    moved.  When the title or a line is not latin-1 text, the call raises
    for the first such text and there is no document. *)
Theorem report_is_title_then_one_line_per_entry (data : list (value * value))
    (title : string) (return_base64 : bool) (now : Z) :
  let texts :=
    title :: map (fun kv => str (fst kv) ++ ": " ++ str (snd kv)) data in
  (forallb latin1 texts = true ->
   exists doc,
     create_pdf_report data title return_base64 now
     = Ret (if return_base64 then Text (decode (b64encode (output doc)))
            else Bytes (output doc))
     /\ created doc = now
     /\ ops doc
        = ([AddPage; SetFont "Arial" "B" 16; Cell 0 10 title true;
            SetFont "Arial" "" 12]
           ++ flat_map (fun kv =>
                          [Ln 8;
                           Cell 0 10 (str (fst kv) ++ ": " ++ str (snd kv))
                             true]) data)%list
     /\ cell_texts (ops doc) = texts
     /\ length (cell_texts (ops doc)) = S (length data))
  /\ (forallb latin1 texts = false ->
      exists before refused after,
        texts = (before ++ refused :: after)%list
        /\ forallb latin1 before = true
        /\ latin1 refused = false
        /\ create_pdf_report data title return_base64 now
           = Raise (OtherException "FPDFUnicodeEncodingException" refused)).
Proof.
  intros texts. change texts with (title :: map item_text data).
  rewrite create_pdf_report_spec. unfold first_refused.
  assert (Hfind : forall l,
            match find (fun t => negb (latin1 t)) l with
            | None => forallb latin1 l = true
            | Some refused =>
                forallb latin1 l = false
                /\ exists before after,
                     l = (before ++ refused :: after)%list
                     /\ forallb latin1 before = true
                     /\ latin1 refused = false
            end).
  { induction l as [|t l IH]; cbn [find forallb]; [reflexivity |].
    destruct (latin1 t) eqn:Ht; cbn [negb andb].
    - destruct (find (fun t => negb (latin1 t)) l) as [refused|];
        [| exact IH].
      destruct IH as [Hall (before & after & Hl & Hbefore & Hrefused)].
      split; [exact Hall |].
      exists (t :: before), after. rewrite Hl. cbn [forallb app].
      rewrite Ht, Hbefore. repeat split. exact Hrefused.
    - split; [reflexivity |]. exists [], l. repeat split. exact Ht. }
  specialize (Hfind (title :: map item_text data)).
  destruct (find (fun t => negb (latin1 t)) (title :: map item_text data))
    as [refused|].
  - destruct Hfind as [Hall (before & after & Hl & Hbefore & Hrefused)].
    split; [intros H; rewrite H in Hall; discriminate Hall |].
    intros _. exists before, refused, after. repeat split; assumption.
  - split; [| intros H; rewrite H in Hfind; discriminate Hfind].
    intros _. eexists. split; [destruct return_base64; reflexivity |].
    cbn [created ops]. split; [reflexivity | split; [reflexivity |]].
    assert (Hcells :
      cell_texts ([AddPage; SetFont "Arial" "B" 16; Cell 0 10 title true;
                   SetFont "Arial" "" 12] ++ flat_map item_ops data)%list
      = title :: map item_text data).
    { cbn [app cell_texts]. rewrite cell_texts_items. reflexivity. }
    split.
    + exact Hcells.
    + rewrite Hcells. cbn [length]. rewrite length_map. reflexivity.
Qed.

End Report.

(** The test vectors of RFC 4648 for [b64encode]. *)
Example b64encode_empty : decode (b64encode (list_byte_of_string "")) = "".
Proof. reflexivity. Qed.
Example b64encode_f : decode (b64encode (list_byte_of_string "f")) = "Zg==".
Proof. reflexivity. Qed.
Example b64encode_fo : decode (b64encode (list_byte_of_string "fo")) = "Zm8=".
Proof. reflexivity. Qed.
Example b64encode_foo : decode (b64encode (list_byte_of_string "foo")) = "Zm9v".
Proof. reflexivity. Qed.
Example b64encode_foob :
  decode (b64encode (list_byte_of_string "foob")) = "Zm9vYg==".
Proof. reflexivity. Qed.
Example b64encode_fooba :
  decode (b64encode (list_byte_of_string "fooba")) = "Zm9vYmE=".
Proof. reflexivity. Qed.
Example b64encode_foobar :
  decode (b64encode (list_byte_of_string "foobar")) = "Zm9vYmFy".
Proof. reflexivity. Qed.

(** ** Worked examples *)

Section Examples.
#[local] Existing Instance Demo.runtime.

(** Age 39 is refused by the example validator: the message comes back as
    text and the calculator is not called. *)
Lemma validation_precedes_calculation_witness :
  fst (@run _ Demo.engine
         (Ascvd (VInt 39) (VStr "Male") (VStr "White") (VInt 200) (VInt 50)
                (VInt 120) (VBool false) (VBool true) (VBool false) (VStr ""))
         Demo.w0)
  = Ret "❌ Input Error: age out of range"
  /\ no_call_to ["ascvd"]
       (new_calls Demo.w0
          (snd (@run _ Demo.engine
                  (Ascvd (VInt 39) (VStr "Male") (VStr "White") (VInt 200)
                         (VInt 50) (VInt 120) (VBool false) (VBool true)
                         (VBool false) (VStr ""))
                  Demo.w0)))
     = true.
Proof.
  exact (proj2 (@validation_precedes_calculation _ Demo.engine
                  (Ascvd (VInt 39) (VStr "Male") (VStr "White") (VInt 200)
                         (VInt 50) (VInt 120) (VBool false) (VBool true)
                         (VBool false) (VStr ""))
                  Demo.w0)
               "age out of range" eq_refl).
Defined.

(** The validator fails with a [TypeError]: [run_ascvd] returns no text, the
    exception reaches the caller, and the log stays empty. *)
Lemma type_error_escapes_run_ascvd :
  fst (@run _ Demo.faulty_engine
         (Ascvd (VInt 60) (VStr "Male") (VStr "White") (VInt 200) (VInt 50)
                (VInt 120) (VBool false) (VBool true) (VBool false) (VStr ""))
         Demo.w0)
  = Raise (TypeError "'NoneType' object is not subscriptable")
  /\ log (snd (@run _ Demo.faulty_engine
                 (Ascvd (VInt 60) (VStr "Male") (VStr "White") (VInt 200)
                        (VInt 50) (VInt 120) (VBool false) (VBool true)
                        (VBool false) (VStr ""))
                 Demo.w0))
     = [].
Proof. split; reflexivity. Qed.

(** A systolic pressure that is a string makes the example validator fail
    with a [TypeError], which [run_bp] lets through. *)
Lemma other_faults_propagate_witness :
  fst (@run _ Demo.engine (Bp (VStr "high") (VInt 80) (VStr "")) Demo.w0)
  = Raise (TypeError "sbp must be a number")
  /\ log (snd (@run _ Demo.engine (Bp (VStr "high") (VInt 80) (VStr ""))
                 Demo.w0))
     = [].
Proof.
  exact (@other_faults_propagate _ Demo.engine
           (Bp (VStr "high") (VInt 80) (VStr "")) Demo.w0
           (TypeError "sbp must be a number") eq_refl eq_refl).
Defined.

(** One successful ECG interpretation: one message is logged, and written to
    the file it takes three lines, since it embeds the three-line summary. *)
Lemma ecg_log_message_spans_three_lines :
  fst (@run _ Demo.engine (Demo.quiet_ecg (VStr "")) Demo.w0)
  = Ret ("Rhythm: Normal Sinus Rhythm" ++ nl
           ++ "Findings: No 12-lead abnormalities detected" ++ nl
           ++ "Overall Risk: Low")
  /\ map lines_in_file
       (log (snd (@run _ Demo.engine (Demo.quiet_ecg (VStr "")) Demo.w0)))
     = [3].
Proof. split; reflexivity. Qed.

(** The message logged for one blood-pressure classification. *)
Lemma one_log_message_per_return_witness :
  log (snd (@run _ Demo.engine (Bp (VInt 120) (VInt 80) (VStr "")) Demo.w0))
  = ["session=1b9d6bcd tool=bp_category inputs={'sbp': 120, 'dbp': 80} outputs=Blood Pressure Category: Normal"].
Proof.
  destruct (@one_log_message_per_return _ Demo.engine
              (Bp (VInt 120) (VInt 80) (VStr "")) Demo.w0
              "Blood Pressure Category: Normal" eq_refl)
    as (data & out & Hin & Hlog & _ & Hout & _).
  rewrite Hlog. cbn in Hin. injection Hin as <-.
  destruct Hout as [-> | (msg & _ & Hmsg)]; [reflexivity | discriminate Hmsg].
Defined.


(** A report of the score text of [run_cha2ds2vasc]: the subscript two is
    not a latin-1 character, the call raises and returns no document. *)
Lemma report_refuses_text_outside_latin1 :
  @create_pdf_report _ ReportDemo.serializer
    [(VStr "patient", VStr "P-17"); (VStr "result", VStr "CHA₂DS₂-VASc Score: 9")]
    "Cardio report" false 0
  = Raise (OtherException "FPDFUnicodeEncodingException"
             "result: CHA₂DS₂-VASc Score: 9").
Proof. reflexivity. Qed.

(** Accented letters are latin-1 text; the subscript two and the cross mark
    are not. *)
Example latin1_examples :
  latin1 "Café au lait: 20 µg" = true
  /\ latin1 "CHA₂DS₂-VASc" = false
  /\ latin1 "❌ Input Error" = false.
Proof. repeat split; reflexivity. Qed.

(** A report in latin-1 text, in base64 mode. *)
Example report_example :
  @create_pdf_report _ ReportDemo.serializer
    [(VStr "sbp", VInt 120); (VStr "dbp", VInt 80)] "Report" true 7
  = Ret (Text (decode (b64encode
                         (list_byte_of_string
                            ("created 7" ++ nl ++ "Report" ++ nl
                               ++ "sbp: 120" ++ nl ++ "dbp: 80"))))).
Proof. reflexivity. Qed.

(** A successful run calls the validator, then the calculator. *)
Example ascvd_calls_example :
  new_calls Demo.w0
    (snd (@run _ Demo.engine
            (Ascvd (VInt 60) (VStr "Male") (VStr "White") (VInt 200) (VInt 50)
                   (VInt 120) (VBool false) (VBool false) (VBool false)
                   (VStr ""))
            Demo.w0))
  = let data :=
      [ ("age", VInt 60); ("sex", VStr "Male"); ("race", VStr "White");
        ("total_cholesterol", VInt 200); ("hdl", VInt 50); ("sbp", VInt 120);
        ("on_htn_meds", VBool false); ("smoker", VBool false);
        ("diabetes", VBool false) ] in
    [ Call "validate_ascvd_input" [VDict data]; Call "ascvd" [VDict data] ].
Proof. reflexivity. Qed.

(** The same ECG with and without the stray leads: nothing differs. *)
Example stray_leads_example :
  @run _ Demo.engine (Demo.quiet_ecg (VStr "V1, V2")) Demo.w0
  = @run _ Demo.engine (Demo.quiet_ecg (VStr "")) Demo.w0.
Proof. reflexivity. Qed.

(** A ticked box with an empty lead textbox: the key is left out. *)
Example empty_leads_example :
  dict_keys (lead_data (VBool true) (VStr "") (VInt 400) (VInt 800)
               (VBool false) (VBool true) (VStr "II, III") (VBool false)
               (VInt 160))
  = ["st_elevation"; "qt_interval_ms"; "rr_interval_ms"; "lvh_criteria_met";
     "pathological_q_waves"; "q_wave_leads"; "t_wave_inversion";
     "pr_interval_ms"].
Proof. reflexivity. Qed.

(** Every box ticked but "Age 65–74": the example scorer answers 9. *)
Example cha2ds2vasc_example :
  fst (@run _ Demo.engine
         (Cha2ds2vasc (VBool true) (VBool true) (VBool true) (VBool true)
                      (VBool true) (VBool true) (VBool false) (VBool true)
                      (VStr ""))
         Demo.w0)
  = Ret "CHA₂DS₂-VASc Score: 9".
Proof. reflexivity. Qed.

(** A flag that [int] cannot read raises before the [try] statement: the
    [ValueError] is not caught. *)
Example cha2ds2vasc_bad_flag :
  @run _ Demo.engine
    (Cha2ds2vasc (VStr "yes") (VBool true) (VBool true) (VBool true)
                 (VBool true) (VBool true) (VBool true) (VBool true)
                 (VStr ""))
    Demo.w0
  = (Raise (ValueError "invalid literal for int() with base 10: 'yes'"),
     Demo.w0).
Proof. reflexivity. Qed.

End Examples.

(** * Further properties *)

(** ** What every invocation does to the log and to the imported functions *)

Section Effects.
Context {RT : Runtime} {E : Engine}.

Ltac open_run :=
  unfold run, run_ascvd, run_bp, run_cha2ds2vasc, run_ecg,
    try_except_ValueError, bind, call1, call2, call3, lift, log_usage, ret,
    record_call.

Ltac split_outcome :=
  match goal with
  | |- context [match ?x with _ => _ end] =>
      lazymatch type of x with
      | outcome _ => destruct x as [?|?] eqn:?
      | exn => destruct x
      | unit => destruct x
      end
  end.

Ltac all_paths :=
  open_run; repeat (cbn [fst snd calls log draws]; split_outcome);
  cbn [fst snd calls log draws].

(** X1. Whatever an invocation does — return a result, report a [ValueError],
    or raise — it leaves the messages already in the log as they are and
    adds at most one; it draws one UUID per message added. *)
Theorem log_grows_by_at_most_one (i : invocation) (w : world) :
  exists added,
    log (snd (run i w)) = (log w ++ added)%list
    /\ length added <= 1
    /\ draws (snd (run i w)) = draws w + length added.
Proof.
  destruct i; all_paths.
  all: first
    [ exists []; rewrite app_nil_r, Nat.add_0_r;
      split; [reflexivity | split; [cbn; lia | reflexivity]]
    | eexists [_]; split; [reflexivity | split; cbn; lia] ].
Qed.

(** X2. The imported functions an invocation calls are the first ones of its
    plan, in order, each once: the validators, then the calculators, up to
    the first that raises; and the calls recorded before stay. *)
Theorem calls_follow_the_plan (i : invocation) (w : world) :
  exists made n,
    calls (snd (run i w)) = (calls w ++ made)%list
    /\ map call_fn made = firstn n (plan i).
Proof.
  destruct i; all_paths; repeat rewrite <- app_assoc; cbn [app].
  all: first
    [ exists []; exists 0; split; [rewrite app_nil_r; reflexivity | reflexivity]
    | eexists; exists 1; split; reflexivity
    | eexists; exists 2; split; reflexivity
    | eexists; exists 3; split; reflexivity
    | eexists; exists 4; split; reflexivity
    | eexists; exists 5; split; reflexivity ].
Qed.

(** X3. A [ValueError] leaves an entry point only when it comes from building
    the input record: never from [run_ascvd], [run_bp] or [run_ecg], and from
    [run_cha2ds2vasc] exactly when one of its [int(...)] coercions raises
    it. *)
Theorem value_error_escapes_iff_coercion_fails (i : invocation) (w : world)
    (msg : string) :
  fst (run i w) = Raise (ValueError msg)
  <-> inputs i = Raise (ValueError msg).
Proof.
  destruct i; unfold inputs; all_paths; split; intros H;
    first [ discriminate H | injection H as ->; reflexivity ].
Qed.

(** X4. When the input record cannot be built, the exception of the coercion is
    raised as it is, and nothing else happens: no function is called, no
    message is logged, no UUID is drawn. *)
Theorem failed_coercion_changes_nothing (i : invocation) (w : world) (e : exn) :
  inputs i = Raise e -> run i w = (Raise e, w).
Proof.
  destruct i; cbn [inputs]; intros H; try discriminate H.
  unfold run, run_cha2ds2vasc, bind, lift. rewrite H. reflexivity.
Qed.

(** X5. A [ValueError] raised by a calculator is handled like one raised by a
    validator: whichever of the imported functions is the first to raise,
    when it raises a [ValueError] the entry point returns the "Input Error"
    text and logs the "Error:" message. *)
Theorem any_value_error_is_an_input_error (i : invocation) (w : world)
    (msg : string) :
  first_raise (engine_outcomes i) = Some (ValueError msg) ->
  fst (run i w) = Ret ("❌ Input Error: " ++ msg)
  /\ exists data,
       inputs i = Ret data
       /\ log (snd (run i w))
          = (log w ++ [usage_message (session_id (draws w)) (tool_name i)
                         (VDict data) ("Error: " ++ msg)])%list.
Proof.
  destruct i; unfold engine_outcomes, inputs, tool_name; all_paths;
    cbn [void first_raise]; intros H; try discriminate H;
    injection H as <-; (split; [reflexivity |]);
    eexists; split; reflexivity.
Qed.

(** X6. The text typed in the "Patient ID" box has no effect: the result, the
    calls and their arguments, and the message logged are the same with any
    other patient id. *)
Theorem patient_id_is_ignored (i : invocation) (pid : value) (w : world) :
  run (with_patient_id i pid) w = run i w.
Proof. destruct i; reflexivity. Qed.

End Effects.

(** ** The summary of [run_ecg] *)

Section EcgSummary.
Context {RT : Runtime} {E : Engine}.

Lemma getitem_not_ValueError (v : value) (k msg : string) :
  getitem v k <> Raise (ValueError msg).
Proof.
  destruct v; cbn [getitem]; try discriminate.
  destruct (dict_get k d); discriminate.
Qed.

(** X7. When both validators accept and the three interpretation functions
    return, and their results have the keys ["findings"] and
    ["overall_risk"], [run_ecg] returns the three-line summary; its second
    line shows the findings, or the sentence "No 12-lead abnormalities
    detected" when the findings are empty (or any falsy value). *)
Theorem run_ecg_summary rate regular p st_elev st_leads qt rr lvh q_waves
    q_leads t_inv pr pid w rhythm findings comprehensive found risk :
  let rd := rhythm_data rate regular p in
  let ld := lead_data st_elev st_leads qt rr lvh q_waves q_leads t_inv pr in
  validate_ecg_rhythm_input rd = Ret tt ->
  validate_ecg_12lead_input ld = Ret tt ->
  interpret_rhythm rate regular p = Ret rhythm ->
  interpret_12lead_findings ld = Ret findings ->
  interpret_ecg_comprehensive (dict_union rd ld) = Ret comprehensive ->
  getitem findings "findings" = Ret found ->
  getitem comprehensive "overall_risk" = Ret risk ->
  fst (run_ecg rate regular p st_elev st_leads qt rr lvh q_waves q_leads
         t_inv pr pid w)
  = Ret ("Rhythm: " ++ str rhythm ++ nl
           ++ "Findings: "
           ++ (if truthy found then str found
               else "No 12-lead abnormalities detected") ++ nl
           ++ "Overall Risk: " ++ str risk).
Proof.
  intros rd ld Hvr Hvl Hr Hf Hc Hfound Hrisk.
  unfold run_ecg, try_except_ValueError, bind, call1, call3, lift, log_usage,
    ret.
  fold rd ld. rewrite Hvr, Hvl, Hr, Hf, Hc, Hfound, Hrisk.
  cbn [fst snd]. destruct (truthy found); reflexivity.
Qed.

(** X8. When the interpretation functions return but a result lacks its key (or
    is not a dict at all), [run_ecg] raises the [KeyError] or [TypeError] of
    the subscript to its caller: all five functions have been called, and
    nothing is logged. *)
Theorem run_ecg_missing_key rate regular p st_elev st_leads qt rr lvh q_waves
    q_leads t_inv pr pid w rhythm findings comprehensive e :
  let rd := rhythm_data rate regular p in
  let ld := lead_data st_elev st_leads qt rr lvh q_waves q_leads t_inv pr in
  validate_ecg_rhythm_input rd = Ret tt ->
  validate_ecg_12lead_input ld = Ret tt ->
  interpret_rhythm rate regular p = Ret rhythm ->
  interpret_12lead_findings ld = Ret findings ->
  interpret_ecg_comprehensive (dict_union rd ld) = Ret comprehensive ->
  (getitem findings "findings" = Raise e
   \/ (exists found, getitem findings "findings" = Ret found)
      /\ getitem comprehensive "overall_risk" = Raise e) ->
  let r := run_ecg rate regular p st_elev st_leads qt rr lvh q_waves q_leads
             t_inv pr pid w in
  fst r = Raise e
  /\ log (snd r) = log w
  /\ new_calls w (snd r)
     = ecg_calls rate regular p st_elev st_leads qt rr lvh q_waves q_leads
         t_inv pr.
Proof.
  intros rd ld Hvr Hvl Hr Hf Hc Hkey r. subst r.
  unfold run_ecg, try_except_ValueError, bind, call1, call3, lift, log_usage,
    ret, record_call, new_calls, ecg_calls.
  fold rd ld. rewrite Hvr, Hvl, Hr, Hf, Hc.
  destruct Hkey as [Hfound | [[found Hfound] Hrisk]].
  - rewrite Hfound. cbn [fst snd calls log draws].
    destruct e; try (exfalso; exact (getitem_not_ValueError _ _ _ Hfound)).
    all: cbn [fst snd calls log draws]; repeat rewrite <- app_assoc;
      rewrite skipn_length_app; repeat split.
  - rewrite Hfound, Hrisk. cbn [fst snd calls log draws].
    destruct e; try (exfalso; exact (getitem_not_ValueError _ _ _ Hrisk)).
    all: cbn [fst snd calls log draws]; repeat rewrite <- app_assoc;
      rewrite skipn_length_app; repeat split.
Qed.

Lemma count_nl_nl : count_nl nl = 1.
Proof. reflexivity. Qed.

(** X9. Whenever no validator and no interpretation function raises and
    [run_ecg] returns a text, that text has at least two line feeds, and the
    one message logged for it takes at least three lines of the log file. *)
Theorem ecg_message_takes_three_lines rate regular p st_elev st_leads qt rr
    lvh q_waves q_leads t_inv pr pid w text :
  let i := Ecg rate regular p st_elev st_leads qt rr lvh q_waves q_leads
             t_inv pr pid in
  first_raise (engine_outcomes i) = None ->
  fst (run i w) = Ret text ->
  2 <= count_nl text
  /\ exists message,
       log (snd (run i w)) = (log w ++ [message])%list
       /\ 3 <= lines_in_file message.
Proof.
  intros i. subst i. unfold engine_outcomes.
  unfold run, run_ecg, try_except_ValueError, bind, call1, call3, lift,
    log_usage, ret, record_call.
  repeat (cbn [fst snd calls log draws];
          match goal with
          | |- context [match ?x with _ => _ end] =>
              lazymatch type of x with
              | outcome _ => destruct x as [?|?] eqn:?
              | exn => destruct x
              | unit => destruct x
              end
          end).
  all: cbn [fst snd calls log draws void first_raise]; intros Hnone Htext;
    try discriminate Hnone; try discriminate Htext.
  all: try match goal with
           | H : getitem _ _ = Raise (ValueError _) |- _ =>
               exfalso; exact (getitem_not_ValueError _ _ _ H)
           end.
  all: injection Htext as <-.
  all: assert (Hsummary : forall a b c, 2 <= count_nl
         ("Rhythm: " ++ a ++ nl ++ "Findings: " ++ b ++ nl
            ++ "Overall Risk: " ++ c))
    by (intros; repeat rewrite count_nl_app; rewrite count_nl_nl; lia).
  all: split; [apply Hsummary |].
  all: eexists; split; [reflexivity |].
  all: unfold lines_in_file; apply le_n_S.
  all: eapply Nat.le_trans; [apply Hsummary | apply count_nl_usage_message].
Qed.

(** X10. Every text an entry point returns is a result under the label of its
    tool, or an input error. *)
Theorem returned_text_is_labelled (i : invocation) (w : world) (text : string) :
  fst (run i w) = Ret text ->
  exists rest, text = label i ++ rest \/ text = "❌ Input Error: " ++ rest.
Proof.
  destruct i; unfold label.
  all: unfold run, run_ascvd, run_bp, run_cha2ds2vasc, run_ecg,
         try_except_ValueError, bind, call1, call2, call3, lift, log_usage,
         ret, record_call.
  all: repeat (cbn [fst snd calls log draws];
          match goal with
          | |- context [match ?x with _ => _ end] =>
              lazymatch type of x with
              | outcome _ => destruct x as [?|?] eqn:?
              | exn => destruct x
              | unit => destruct x
              end
          end).
  all: cbn [fst snd calls log draws]; intros H; try discriminate H;
    injection H as <-; eexists;
    first [ left; reflexivity | right; reflexivity ].
Qed.

(** X11. A text returned when no validator and no calculator raised was computed
    with every function of the plan called, in order, and it is that text,
    as it is, that the message logged carries. *)
Theorem result_is_computed_and_logged (i : invocation) (w : world)
    (text : string) :
  first_raise (engine_outcomes i) = None ->
  fst (run i w) = Ret text ->
  map call_fn (new_calls w (snd (run i w))) = plan i
  /\ exists data,
       inputs i = Ret data
       /\ log (snd (run i w))
          = (log w ++ [usage_message (session_id (draws w)) (tool_name i)
                         (VDict data) text])%list.
Proof.
  destruct i; unfold engine_outcomes, inputs, tool_name, plan.
  all: unfold run, run_ascvd, run_bp, run_cha2ds2vasc, run_ecg,
         try_except_ValueError, bind, call1, call2, call3, lift, log_usage,
         ret, record_call, new_calls.
  all: repeat (cbn [fst snd calls log draws];
          match goal with
          | |- context [match ?x with _ => _ end] =>
              lazymatch type of x with
              | outcome _ => destruct x as [?|?] eqn:?
              | exn => destruct x
              | unit => destruct x
              end
          end).
  all: cbn [fst snd calls log draws void first_raise]; intros Hnone Htext;
    try discriminate Hnone; try discriminate Htext.
  all: try match goal with
           | H : getitem _ _ = Raise (ValueError _) |- _ =>
               exfalso; exact (getitem_not_ValueError _ _ _ H)
           end.
  all: injection Htext as <-.
  all: repeat rewrite <- app_assoc; rewrite skipn_length_app.
  all: split; [reflexivity | eexists; split; reflexivity].
Qed.

End EcgSummary.

(** ** The bands of [run_ascvd], read backwards *)

Section Bands.

Ltac fold_pos_compare :=
  repeat match goal with
  | |- context [Pos.compare_cont Eq ?a ?b] =>
      change (Pos.compare_cont Eq a b) with (Pos.compare a b)
  | H : context [Pos.compare_cont Eq ?a ?b] |- _ =>
      change (Pos.compare_cont Eq a b) with (Pos.compare a b) in H
  end.

Ltac split_compare :=
  repeat match goal with
  | H : context [Z.compare ?a ?b] |- _ => destruct (Z.compare_spec a b)
  | |- context [Z.compare ?a ?b] => destruct (Z.compare_spec a b)
  | H : context [Pos.compare ?a ?b] |- _ => destruct (Pos.compare_spec a b)
  | |- context [Pos.compare ?a ?b] => destruct (Pos.compare_spec a b)
  end.

Lemma SFleb_trans x y z :
  SFleb x y = true -> SFleb y z = true -> SFleb x z = true.
Proof.
  unfold SFleb.
  destruct x as [[]|[]| |[] m1 e1], y as [[]|[]| |[] m2 e2],
           z as [[]|[]| |[] m3 e3];
    cbn; try discriminate; try reflexivity;
    fold_pos_compare; intros H1 H2; split_compare; cbn in *; subst;
    try reflexivity; try discriminate; try lia.
Qed.

Lemma leb_trans (x y z : float) :
  (x <=? y)%float = true -> (y <=? z)%float = true -> (x <=? z)%float = true.
Proof. rewrite !leb_spec. apply SFleb_trans. Qed.

Lemma SFcompare_refl x : x <> S754_nan -> SFcompare x x = Some Eq.
Proof.
  destruct x as [[]|[]| |[] m e]; cbn; intros H; try reflexivity;
    try congruence.
  all: rewrite Z.compare_refl; fold_pos_compare; rewrite Pos.compare_refl;
    reflexivity.
Qed.

(** A float is NaN exactly when its specification is. *)
Lemma is_nan_spec (x : float) : is_nan x = true <-> Prim2SF x = S754_nan.
Proof.
  unfold is_nan. rewrite eqb_spec. unfold SFeqb. split.
  - intros H. destruct (Prim2SF x) as [s|s| |s m e] eqn:Hx; try reflexivity.
    all: rewrite SFcompare_refl in H by discriminate; discriminate H.
  - intros ->. reflexivity.
Qed.

(** Two floats that do not compare: one of them is NaN. *)
Lemma SFcompare_None x y :
  SFcompare x y = None -> x = S754_nan \/ y = S754_nan.
Proof.
  destruct x as [[]|[]| |[] m1 e1], y as [[]|[]| |[] m2 e2]; cbn;
    intros H; try discriminate H; auto.
Qed.

(** [c <= x] fails only when [x < c] or one of the two is NaN. *)
Lemma not_leb (c x : float) :
  (c <=? x)%float = false ->
  (x <? c)%float = true \/ is_nan x = true \/ is_nan c = true.
Proof.
  rewrite leb_spec, ltb_spec. unfold SFleb, SFltb.
  rewrite (SFcompare_antisym (Prim2SF c) (Prim2SF x)).
  destruct (SFcompare (Prim2SF c) (Prim2SF x)) as [[]|] eqn:Hc;
    cbn; intros H; try discriminate H.
  - left. reflexivity.
  - right. destruct (SFcompare_None _ _ Hc) as [Hn | Hn].
    + right. apply is_nan_spec, Hn.
    + left. apply is_nan_spec, Hn.
Qed.

(** NaN is not above anything. *)
Lemma leb_nan (c x : float) : is_nan x = true -> (c <=? x)%float = false.
Proof.
  intros H. apply is_nan_spec in H. rewrite leb_spec, H. unfold SFleb.
  destruct (Prim2SF c); reflexivity.
Qed.

(** X12. The category of [run_ascvd] tells the band of the risk: "High" only from
    0.20 upwards, "Intermediate" only in [0.075, 0.20), "Borderline" only in
    [0.05, 0.075), and "Low" only below 0.05 or for a risk that is not a
    number (NaN), which compares with no breakpoint. *)
Theorem ascvd_category_tells_the_band (risk : float) :
  (ascvd_category risk = "High" <-> (0.20 <=? risk)%float = true)
  /\ (ascvd_category risk = "Intermediate"
      <-> (0.075 <=? risk)%float = true /\ (risk <? 0.20)%float = true)
  /\ (ascvd_category risk = "Borderline"
      <-> (0.05 <=? risk)%float = true /\ (risk <? 0.075)%float = true)
  /\ (ascvd_category risk = "Low"
      <-> (risk <? 0.05)%float = true \/ is_nan risk = true).
Proof.
  assert (Hnot : forall c, is_nan c = false -> (c <=? risk)%float = false ->
                 is_nan risk = false -> (risk <? c)%float = true).
  { intros c Hc H Hr. destruct (not_leb c risk H) as [Hlt | [Hn | Hn]];
      [exact Hlt | congruence | congruence]. }
  assert (Hnum : forall c, (c <=? risk)%float = true -> is_nan risk = false).
  { intros c H. destruct (is_nan risk) eqn:Hn; [| reflexivity].
    rewrite (leb_nan c risk Hn) in H. discriminate H. }
  assert (Hcases : forall (P : Prop),
            (forall b20 b75 b5,
               (0.20 <=? risk)%float = b20 -> (0.075 <=? risk)%float = b75 ->
               (0.05 <=? risk)%float = b5 ->
               ascvd_category risk
               = (if b20 then "High" else if b75 then "Intermediate"
                  else if b5 then "Borderline" else "Low") -> P) -> P).
  { intros P HP. exact (HP _ _ _ eq_refl eq_refl eq_refl eq_refl). }
  split; [| split; [| split]]; split.
  - intros Hc. apply Hcases. intros b20 b75 b5 H20 H75 H5 Hcat.
    rewrite Hcat in Hc. rewrite H20.
    destruct b20; [reflexivity |]. destruct b75, b5; discriminate Hc.
  - apply ascvd_category_high.
  - intros Hc. apply Hcases. intros b20 b75 b5 H20 H75 H5 Hcat.
    rewrite Hcat in Hc.
    destruct b20; [discriminate Hc |].
    destruct b75; [| destruct b5; discriminate Hc].
    split; [exact H75 |].
    apply (Hnot 0.20%float eq_refl H20). exact (Hnum _ H75).
  - intros [Hlo Hhi]. exact (ascvd_category_intermediate risk Hlo Hhi).
  - intros Hc. apply Hcases. intros b20 b75 b5 H20 H75 H5 Hcat.
    rewrite Hcat in Hc.
    destruct b20; [discriminate Hc |]. destruct b75; [discriminate Hc |].
    destruct b5; [| discriminate Hc].
    split; [exact H5 |].
    apply (Hnot 0.075%float eq_refl H75). exact (Hnum _ H5).
  - intros [Hlo Hhi]. exact (ascvd_category_borderline risk Hlo Hhi).
  - intros Hc. apply Hcases. intros b20 b75 b5 H20 H75 H5 Hcat.
    rewrite Hcat in Hc.
    destruct b20; [discriminate Hc |]. destruct b75; [discriminate Hc |].
    destruct b5; [discriminate Hc |].
    destruct (not_leb _ _ H5) as [Hlt | [Hn | Hn]];
      [left; exact Hlt | right; exact Hn | discriminate Hn].
  - intros [Hlt | Hn].
    + exact (ascvd_category_low risk Hlt).
    + unfold ascvd_category. rewrite !(leb_nan _ risk Hn). reflexivity.
Qed.

(** X13. A larger risk never gets a milder category. *)
Theorem ascvd_category_monotone (r1 r2 : float) :
  (r1 <=? r2)%float = true ->
  band_rank (ascvd_category r1) <= band_rank (ascvd_category r2).
Proof.
  intros H. unfold ascvd_category.
  destruct (0.20 <=? r1)%float eqn:H20.
  { rewrite (leb_trans _ _ _ H20 H). reflexivity. }
  destruct (0.075 <=? r1)%float eqn:H75.
  { rewrite (leb_trans _ _ _ H75 H).
    destruct (0.20 <=? r2)%float; cbn; lia. }
  destruct (0.05 <=? r1)%float eqn:H5.
  { rewrite (leb_trans _ _ _ H5 H).
    destruct (0.20 <=? r2)%float, (0.075 <=? r2)%float; cbn; lia. }
  cbn. lia.
Qed.

End Bands.

(** A risk of 7.5% against one of 20%. *)
Lemma ascvd_category_monotone_witness :
  band_rank (ascvd_category 0.075) <= band_rank (ascvd_category 0.20).
Proof. exact (ascvd_category_monotone 0.075 0.20 eq_refl). Defined.

(** ** The records and the session identifier *)

Section MoreRecords.
Context {RT : Runtime} {E : Engine}.

Lemma dict_get_app_l (k : string) (a b : dict) (v : value) :
  dict_get k a = Some v -> dict_get k (a ++ b)%list = Some v.
Proof.
  induction a as [|[k' v'] a IH]; cbn [dict_get app]; [discriminate |].
  destruct (k =? k')%string; [exact (fun H => H) | exact IH].
Qed.

Lemma dict_get_absent (k : string) (a : dict) :
  ~ In k (dict_keys a) -> dict_get k a = None.
Proof.
  induction a as [|[k' v'] a IH]; cbn [dict_get dict_keys map fst In];
    [reflexivity |].
  intros H. destruct (String.eqb_spec k k') as [-> | _].
  - exfalso. apply H. left. reflexivity.
  - apply IH. intros Hin. apply H. right. exact Hin.
Qed.

Lemma dict_get_present (k : string) (a : dict) (v : value) :
  dict_get k a = Some v -> In k (dict_keys a).
Proof.
  induction a as [|[k' v'] a IH]; cbn [dict_get dict_keys map fst In];
    [discriminate |].
  destruct (String.eqb_spec k k') as [-> | _]; [left; reflexivity |].
  intros H. right. exact (IH H).
Qed.

Lemma dict_get_app_r (k : string) (a b : dict) (v : value) :
  NoDup (dict_keys (a ++ b)%list) ->
  dict_get k b = Some v -> dict_get k (a ++ b)%list = Some v.
Proof.
  induction a as [|[k' v'] a IH]; cbn [dict_get dict_keys map fst app];
    [intros _ H; exact H |].
  intros Hnd H. inversion Hnd as [|x l Hnotin Hnd']; subst.
  destruct (String.eqb_spec k k') as [-> | _].
  - exfalso. apply Hnotin. unfold dict_keys in *. rewrite map_app.
    apply in_or_app. right. exact (dict_get_present _ _ _ H).
  - exact (IH Hnd' H).
Qed.

(** X14. The record [run_ecg] gives to the comprehensive interpretation and to
    the log, [{**rhythm_data, **lead_data}], is the rhythm record followed by
    the lead record: the two share no key, so the merge overwrites nothing,
    keeps every key once, and every field of either record is found in it
    with its value. *)
Theorem merged_record_keeps_every_field rate regular p st_elev st_leads qt rr
    lvh q_waves q_leads t_inv pr :
  let rd := rhythm_data rate regular p in
  let ld := lead_data st_elev st_leads qt rr lvh q_waves q_leads t_inv pr in
  let merged := dict_union rd ld in
  merged = (rd ++ ld)%list
  /\ NoDup (dict_keys merged)
  /\ (forall k v, dict_get k rd = Some v \/ dict_get k ld = Some v ->
                  dict_get k merged = Some v)
  /\ 10 <= length merged <= 12.
Proof.
  intros rd ld merged.
  assert (Hshape : merged = (rd ++ ld)%list
                   /\ NoDup (dict_keys (rd ++ ld)%list)
                   /\ 10 <= length (rd ++ ld)%list <= 12).
  { subst merged rd ld. unfold dict_union, rhythm_data, lead_data.
    rewrite !optional_leads_spec.
    destruct (truthy st_elev && truthy st_leads),
             (truthy q_waves && truthy q_leads).
    all: split; [reflexivity | split; [| vm_compute; lia]].
    all: vm_compute; repeat constructor; cbn; intuition discriminate. }
  destruct Hshape as [Heq [Hnd Hlen]]. rewrite Heq.
  split; [reflexivity | split; [exact Hnd | split; [| exact Hlen]]].
  intros k v [H | H].
  - exact (dict_get_app_l k rd ld v H).
  - exact (dict_get_app_r k rd ld v Hnd H).
Qed.

Lemma substring_prefix (n : nat) (s : string) :
  exists rest, s = substring 0 n s ++ rest
               /\ String.length (substring 0 n s) = Nat.min n (String.length s).
Proof.
  revert s. induction n as [|n IH]; intros [|c s]; cbn.
  - exists "". split; reflexivity.
  - exists (String c s). split; reflexivity.
  - exists "". split; reflexivity.
  - destruct (IH s) as [rest [Hs Hl]]. exists rest.
    rewrite <- Hs, Hl. split; reflexivity.
Qed.

(** X15. The session identifier [log_usage] writes is the beginning of the UUID
    text, cut after eight characters: it never has more than eight. *)
Theorem session_id_is_a_short_prefix (n : nat) :
  exists rest,
    uuid4_str n = session_id n ++ rest
    /\ String.length (session_id n) = Nat.min 8 (String.length (uuid4_str n))
    /\ String.length (session_id n) <= 8.
Proof.
  unfold session_id.
  destruct (substring_prefix 8 (uuid4_str n)) as [rest [Hs Hl]].
  exists rest. split; [exact Hs | split; [exact Hl | rewrite Hl; lia]].
Qed.

(** X16. With checkbox values (booleans) for the eight flags, [run_cha2ds2vasc]
    always builds its record and calls the validator first, with the flags
    as 0 and 1; so it never raises a [ValueError]: it returns a text, or
    raises what the validator or the scorer raised that is not one. *)
Theorem checkbox_flags_reach_the_validator (b1 b2 b3 b4 b5 b6 b7 b8 : bool)
    (pid : value) (w : world) :
  let r := run_cha2ds2vasc (VBool b1) (VBool b2) (VBool b3) (VBool b4)
             (VBool b5) (VBool b6) (VBool b7) (VBool b8) pid w in
  let data :=
    [ ("chf", VInt (Z.b2z b1)); ("hypertension", VInt (Z.b2z b2));
      ("age_ge_75", VInt (Z.b2z b3)); ("diabetes", VInt (Z.b2z b4));
      ("stroke", VInt (Z.b2z b5)); ("vascular", VInt (Z.b2z b6));
      ("age_65_74", VInt (Z.b2z b7)); ("female", VInt (Z.b2z b8)) ] in
  (exists rest,
     new_calls w (snd r)
     = Call "validate_cha2ds2vasc_input" [VDict data] :: rest)
  /\ ((exists text, fst r = Ret text)
      \/ (exists e, fst r = Raise e /\ is_ValueError e = false)).
Proof.
  intros r data.
  assert (Hdata : cha2ds2vasc_data (VBool b1) (VBool b2) (VBool b3) (VBool b4)
                    (VBool b5) (VBool b6) (VBool b7) (VBool b8) = Ret data).
  { subst data. destruct b1, b2, b3, b4, b5, b6, b7, b8; reflexivity. }
  subst r.
  unfold run_cha2ds2vasc, try_except_ValueError, bind, call1, lift, log_usage,
    ret, record_call, new_calls.
  rewrite Hdata.
  destruct (validate_cha2ds2vasc_input data) as [[]|[]];
    [ destruct (cha2ds2vasc data) as [score|[]] | .. ].
  all: cbn [fst snd calls log draws]; repeat rewrite <- app_assoc;
    rewrite skipn_length_app; cbn [app].
  all: split; [eexists; reflexivity |].
  all: first [ left; eexists; reflexivity
             | right; eexists; split; reflexivity ].
Qed.

End MoreRecords.

(** ** The results message of the templates *)

Section ResultsMessage.
Context {RT : Runtime} {NF : NumberFormat}.

(** X19. [get_results_message] fills the four fields of the template and nothing
    else: the condition, the assessment and the recommendation go in as
    their [str], braces and all, and the score formatted with two decimals.
    The template names no field that is not passed, so the only exception it
    can raise is the one of formatting a score that is not a number. *)
Theorem results_message_frame (condition score assessment
    recommendation : value) :
  get_results_message condition score assessment recommendation
  = Some match format_fixed2 score with
         | Raise e => Raise e
         | Ret shown =>
             Ret (nl ++ "📊 **" ++ str condition ++ " Risk Assessment**" ++ nl
                     ++ "- Risk Score: **" ++ shown ++ "**" ++ nl
                     ++ "- Assessment: " ++ str assessment ++ nl
                     ++ "- Recommendation: " ++ str recommendation ++ nl)
         end.
Proof.
  unfold get_results_message, str_format, RESULTS_TEMPLATE.
  cbv -[format_fixed2 str].
  destruct (format_fixed2 score); reflexivity.
Qed.

End ResultsMessage.

(** ** Worked examples for the further properties *)

Section MoreExamples.
#[local] Existing Instance Demo.runtime.

(** A flag that is [None] cannot be coerced: the [TypeError] of [int] is
    raised and nothing else happens. *)
Lemma failed_coercion_changes_nothing_witness :
  @run _ Demo.engine
    (Cha2ds2vasc VNone (VBool true) (VBool false) (VBool false) (VBool false)
                 (VBool false) (VBool false) (VBool true) (VStr "p-17"))
    Demo.w0
  = (Raise (TypeError "int() argument must be a string, a bytes-like object or a real number, not 'NoneType'"),
     Demo.w0).
Proof.
  exact (@failed_coercion_changes_nothing _ Demo.engine
           (Cha2ds2vasc VNone (VBool true) (VBool false) (VBool false)
                        (VBool false) (VBool false) (VBool false) (VBool true)
                        (VStr "p-17"))
           Demo.w0 _ eq_refl).
Defined.

(** The classifier, not the validator, refuses 80 over 120: the text and the
    log are those of an input error all the same. *)
Lemma any_value_error_is_an_input_error_witness :
  fst (@run _ Cases.picky_engine (Bp (VInt 80) (VInt 120) (VStr "")) Demo.w0)
  = Ret "❌ Input Error: diastolic above systolic"
  /\ log (snd (@run _ Cases.picky_engine (Bp (VInt 80) (VInt 120) (VStr ""))
                 Demo.w0))
     = ["session=1b9d6bcd tool=bp_category inputs={'sbp': 80, 'dbp': 120} outputs=Error: diastolic above systolic"].
Proof.
  destruct (@any_value_error_is_an_input_error _ Cases.picky_engine
              (Bp (VInt 80) (VInt 120) (VStr "")) Demo.w0
              "diastolic above systolic" eq_refl)
    as [Htext [data [Hdata Hlog]]].
  split; [exact Htext |].
  rewrite Hlog. cbn in Hdata. injection Hdata as <-. reflexivity.
Defined.

(** The summary of the quiet ECG: no finding, so the fixed sentence. *)
Lemma run_ecg_summary_witness :
  fst (@run _ Demo.engine (Demo.quiet_ecg (VStr "")) Demo.w0)
  = Ret ("Rhythm: Normal Sinus Rhythm" ++ nl
           ++ "Findings: No 12-lead abnormalities detected" ++ nl
           ++ "Overall Risk: Low").
Proof.
  exact (@run_ecg_summary _ Demo.engine
           (VInt 75) (VBool true) (VBool true) (VBool false) (VStr "")
           (VInt 400) (VInt 800) (VBool false) (VBool false) (VStr "")
           (VBool false) (VInt 160) (VStr "") Demo.w0
           (VStr "Normal Sinus Rhythm") (VDict [("findings", VList [])])
           (VDict [("overall_risk", VStr "Low")]) (VList []) (VStr "Low")
           eq_refl eq_refl eq_refl eq_refl eq_refl eq_refl eq_refl).
Defined.

(** A 12-lead result without the key: the [KeyError] reaches the caller
    after all five calls, and the log stays empty. *)
Lemma run_ecg_missing_key_witness :
  fst (@run _ Cases.bare_engine (Demo.quiet_ecg (VStr "")) Demo.w0)
  = Raise (KeyError "findings")
  /\ log (snd (@run _ Cases.bare_engine (Demo.quiet_ecg (VStr "")) Demo.w0))
     = []
  /\ map call_fn
       (new_calls Demo.w0
          (snd (@run _ Cases.bare_engine (Demo.quiet_ecg (VStr "")) Demo.w0)))
     = ["validate_ecg_rhythm_input"; "validate_ecg_12lead_input";
        "interpret_rhythm"; "interpret_12lead_findings";
        "interpret_ecg_comprehensive"].
Proof.
  destruct (@run_ecg_missing_key _ Cases.bare_engine
              (VInt 75) (VBool true) (VBool true) (VBool false) (VStr "")
              (VInt 400) (VInt 800) (VBool false) (VBool false) (VStr "")
              (VBool false) (VInt 160) (VStr "") Demo.w0
              (VStr "Normal Sinus Rhythm") (VDict [("abnormal", VBool false)])
              (VDict [("overall_risk", VStr "Low")]) (KeyError "findings")
              eq_refl eq_refl eq_refl eq_refl eq_refl (or_introl eq_refl))
    as [Hraise [Hlog Hcalls]].
  split; [exact Hraise | split; [exact Hlog |]].
  change (@run _ Cases.bare_engine (Demo.quiet_ecg (VStr "")) Demo.w0)
    with (@run_ecg _ Cases.bare_engine
            (VInt 75) (VBool true) (VBool true) (VBool false) (VStr "")
            (VInt 400) (VInt 800) (VBool false) (VBool false) (VStr "")
            (VBool false) (VInt 160) (VStr "") Demo.w0).
  rewrite Hcalls. reflexivity.
Defined.

(** The message logged for the quiet ECG takes three lines. *)
Lemma ecg_message_takes_three_lines_witness :
  2 <= count_nl ("Rhythm: Normal Sinus Rhythm" ++ nl
                   ++ "Findings: No 12-lead abnormalities detected" ++ nl
                   ++ "Overall Risk: Low").
Proof.
  exact (proj1 (@ecg_message_takes_three_lines _ Demo.engine
                  (VInt 75) (VBool true) (VBool true) (VBool false) (VStr "")
                  (VInt 400) (VInt 800) (VBool false) (VBool false) (VStr "")
                  (VBool false) (VInt 160) (VStr "") Demo.w0 _
                  eq_refl eq_refl)).
Defined.

(** The text of a blood-pressure classification carries its label. *)
Lemma returned_text_is_labelled_witness :
  exists rest,
    "Blood Pressure Category: Normal" = "Blood Pressure Category: " ++ rest
    \/ "Blood Pressure Category: Normal" = "❌ Input Error: " ++ rest.
Proof.
  exact (@returned_text_is_labelled _ Demo.engine
           (Bp (VInt 120) (VInt 80) (VStr "")) Demo.w0
           "Blood Pressure Category: Normal" eq_refl).
Defined.

(** A score of 9: the validator and the scorer were called, and the text
    returned is the one logged. *)
Lemma result_is_computed_and_logged_witness :
  map call_fn
    (new_calls Demo.w0
       (snd (@run _ Demo.engine
               (Cha2ds2vasc (VBool true) (VBool true) (VBool true)
                            (VBool true) (VBool true) (VBool true)
                            (VBool false) (VBool true) (VStr ""))
               Demo.w0)))
  = ["validate_cha2ds2vasc_input"; "cha2ds2vasc"].
Proof.
  exact (proj1 (@result_is_computed_and_logged _ Demo.engine
                  (Cha2ds2vasc (VBool true) (VBool true) (VBool true)
                               (VBool true) (VBool true) (VBool true)
                               (VBool false) (VBool true) (VStr ""))
                  Demo.w0 "CHA₂DS₂-VASc Score: 9" eq_refl eq_refl)).
Defined.

(** A filled template, with an argument that holds braces. *)
Example results_message_example :
  @get_results_message _ Cases.number_format
    (VStr "ASCVD {score}") (VFloat 7.5) (VStr "elevated") (VStr "follow up")
  = Some (Ret (nl ++ "📊 **ASCVD {score} Risk Assessment**" ++ nl
                  ++ "- Risk Score: **7.50**" ++ nl
                  ++ "- Assessment: elevated" ++ nl
                  ++ "- Recommendation: follow up" ++ nl)).
Proof. reflexivity. Qed.

(** A score that is a text raises the [ValueError] of the format code. *)
Example results_message_bad_score :
  @get_results_message _ Cases.number_format
    (VStr "ASCVD") (VStr "high") (VStr "elevated") (VStr "follow up")
  = Some (Raise (ValueError "Unknown format code 'f' for object of type 'str'")).
Proof. reflexivity. Qed.

End MoreExamples.
